(** * ScreenShot_Analysis: the backend of [image_analysis.py]

    A shallow embedding of the two backend classes of the program,
    [HistoryManager] (read-modify-write of the single JSON history file)
    and [GeminiClient] (model selection and the chat session wrapper),
    together with the properties the specification states about them,
    and of the logic of the callbacks of [App] that use the two.

    Python strings are represented by their UTF-8 bytes ([string]):
    byte-wise lexicographic comparison of UTF-8 agrees with Python's
    code-point comparison, an ASCII needle occurs in the bytes exactly
    when it occurs in the code points, and [str.lower] acts on the ASCII
    letters as [lower] below does. *)

From stdpp Require Import base option list strings pretty gmap sorting.

Local Open Scope string_scope.

Set Warnings "-register-all".

(** ** The Python fragment the backend runs in *)

Module Py.

(** The exceptions the backend raises, catches or lets through. *)
Inductive exn : Type :=
  | JSONDecodeError                (* json: the text is not a JSON document *)
  | UnicodeDecodeError             (* text-mode read of undecodable bytes *)
  | OSError                        (* [IOError] is an alias of it *)
  | TypeError
  | KeyError
  | IndexError
  | AttributeError
  | ValueError (msg : string)
  | RuntimeError (msg : string)
  | ServiceError (msg : string).   (* whatever the remote-service library raises *)

(** The builtin exception classes named in the [except] clauses. *)
Inductive exn_class : Type :=
  | ClsJSONDecodeError | ClsIOError | ClsException.

(** [isinstance e cls], along Python's class hierarchy: [JSONDecodeError]
    and [UnicodeDecodeError] both derive from [ValueError], neither from
    the other. *)
Definition isinstance (e : exn) (c : exn_class) : bool :=
  match c, e with
  | ClsException, _ => true
  | ClsJSONDecodeError, JSONDecodeError => true
  | ClsIOError, OSError => true
  | _, _ => false
  end.

(** The result of running a piece of code: a value or a raised exception. *)
Inductive outcome (A : Type) : Type :=
  | Return (a : A)
  | Raise (e : exn).
Arguments Return {A} a.
Arguments Raise {A} e.

Definition raises {A} (r : outcome A) : Prop := ∃ e, r = Raise e.

(** Code that reads and writes a store [S] and may raise: the store
    survives an exception, as the attributes of an object or the contents
    of a file do. *)
Definition M (S A : Type) : Type := S → outcome A * S.

Definition ret {S A} (a : A) : M S A := λ s, (Return a, s).
Definition throw {S A} (e : exn) : M S A := λ s, (Raise e, s).
Definition bind {S A B} (m : M S A) (k : A → M S B) : M S B :=
  λ s, match m s with
       | (Return a, s') => k a s'
       | (Raise e, s') => (Raise e, s')
       end.
Definition get {S} : M S S := λ s, (Return s, s).
Definition put {S} (s : S) : M S unit := λ _, (Return tt, s).
Definition lift {S A} (r : outcome A) : M S A := λ s, (r, s).

(** [try: body except (c1, c2, ...): handler] *)
Definition try_except {S A} (body : M S A) (classes : list exn_class)
    (handler : exn → M S A) : M S A :=
  λ s, match body s with
       | (Return a, s') => (Return a, s')
       | (Raise e, s') =>
           if existsb (isinstance e) classes then handler e s'
           else (Raise e, s')
       end.

(** [p in s] on strings: [p] occurs in [s] as a contiguous run. *)
Fixpoint str_contains (p s : string) : bool :=
  String.prefix p s ||
  match s with
  | EmptyString => false
  | String _ s' => str_contains p s'
  end.

(** The values [json.load] produces and [json.dump] accepts: [None],
    [bool], [int], [float] (kept as its 64 bits), [str], [list], and
    [dict] with [str] keys.  Two dicts are equal when they bind the same
    keys to equal values, whatever the insertion order, as with Python's
    [==] on dicts. *)
Inductive json : Type :=
  | JNull
  | JBool (b : bool)
  | JInt (n : Z)
  | JFloat (bits : Z)
  | JStr (s : string)
  | JArr (l : list json)
  | JObj (m : gmap string json).

(** [x == s] for a string [s]. *)
Definition eq_str (s : string) (x : json) : bool :=
  match x with
  | JStr t => bool_decide (t = s)
  | _ => false
  end.

(** [k in data] *)
Definition contains (k : string) (data : json) : outcome bool :=
  match data with
  | JObj m => Return (bool_decide (is_Some (m !! k)))
  | JArr l => Return (existsb (eq_str k) l)
  | JStr s => Return (str_contains k s)
  | JNull | JBool _ | JInt _ | JFloat _ => Raise TypeError
  end.

(** [data[k] = v] for a string key [k] *)
Definition setitem (data : json) (k : string) (v : json) : outcome json :=
  match data with
  | JObj m => Return (JObj (<[k:=v]> m))
  | _ => Raise TypeError
  end.

(** [del data[k]] for a string key [k] *)
Definition delitem (data : json) (k : string) : outcome json :=
  match data with
  | JObj m => if m !! k is Some _ then Return (JObj (delete k m)) else Raise KeyError
  | _ => Raise TypeError
  end.

(** [data[k]] for a string key [k] *)
Definition getitem (data : json) (k : string) : outcome json :=
  match data with
  | JObj m => match m !! k with Some v => Return v | None => Raise KeyError end
  | _ => Raise TypeError
  end.

End Py.

Export Py.

Notation "x <- m ;; k" := (bind m (λ x, k))
  (at level 100, m at next level, right associativity,
   format "'[v' x  <-  m  ;;  '/' k ']'").
Notation "m ;; k" := (bind m (λ _, k))
  (at level 100, right associativity, format "'[v' m  ;;  '/' k ']'").

(** ** The history file *)

Module FS.

(** What a text-mode read of the file followed by JSON decoding makes of
    the bytes stored in it. *)
Inductive content : Type :=
  | Undecodable            (* bytes that are not text in the file encoding *)
  | Malformed              (* text that is not a JSON document *)
  | Holds (v : json).      (* the JSON text of [v] *)

(** The state of the path [HISTORY_FILE = "chat_history.json"], the only
    path the backend touches. *)
Inductive file : Type :=
  | Absent                 (* nothing at the path *)
  | Blocked                (* something [open] refuses: a directory, no permission *)
  | Regular (c : content).

(** [os.path.exists(HISTORY_FILE)] *)
Definition os_path_exists : M file bool :=
  fs <- get ;;
  ret (match fs with Absent => false | _ => true end).

Definition openable (fs : file) : bool :=
  match fs with Blocked => false | _ => true end.

(** [with open(HISTORY_FILE, "r") as f: json.load(f)] *)
Definition json_load_file : M file json :=
  fs <- get ;;
  match fs with
  | Absent | Blocked => throw OSError
  | Regular Undecodable => throw UnicodeDecodeError
  | Regular Malformed => throw JSONDecodeError
  | Regular (Holds v) => ret v
  end.

(** [with open(HISTORY_FILE, "w") as f: json.dump(v, f, ...)]: the file is
    created or truncated and then holds the JSON text of [v]. *)
Definition json_dump_file (v : json) : M file unit :=
  fs <- get ;;
  if openable fs then put (Regular (Holds v)) else throw OSError.

End FS.

Export FS.

(** ** [class HistoryManager] *)

Module HistoryManager.

Definition load : M file json :=
  ex <- os_path_exists ;;
  if negb ex then ret (JObj ∅)
  else
    try_except json_load_file [ClsJSONDecodeError; ClsIOError]
      (λ _, ret (JObj ∅)).

(** The dict literal [save] builds. *)
Definition entry_dict (title image_paths history_log : json) (now : string)
    : json :=
  JObj (<["title" := title]>
       (<["images" := image_paths]>
       (<["messages" := history_log]>
       (<["updated_at" := JStr now]> ∅)))).

(** [now] is what [datetime.datetime.now().isoformat()] evaluates to during
    the call. *)
Definition save (chat_id : string) (title image_paths history_log : json)
    (now : string) : M file unit :=
  data <- load ;;
  let entry := entry_dict title image_paths history_log now in
  data <- lift (setitem data chat_id entry) ;;
  json_dump_file data.

Definition delete_entry (chat_id : string) : M file unit :=
  data <- load ;;
  present <- lift (contains chat_id data) ;;
  if (present : bool) then
    data <- lift (delitem data chat_id) ;;
    json_dump_file data
  else ret tt.

Definition clear_all : M file unit :=
  ex <- os_path_exists ;;
  if (ex : bool) then json_dump_file (JObj ∅) else ret tt.

End HistoryManager.

(** ** [class GeminiClient] *)

Module GeminiClient.

Definition FALLBACK_MODEL : string := "gemini-1.5-flash-latest".

(** An entry of [genai.list_models()]. *)
Record model_info : Type := ModelInfo {
  name : string;
  supported_generation_methods : list string
}.

(** An opened PIL image, identified by the path it was opened from. *)
Inductive image : Type := PILImage (path : string).

Inductive part : Type :=
  | Text (s : string)
  | Img (i : image).

(** What is handed to [ChatSession.send_message]: a string or a list. *)
Inductive content : Type :=
  | Str (s : string)
  | Parts (l : list part).

(** A [ChatSession]: the turns exchanged in it so far. *)
Record chat_session : Type := ChatSession {
  history : list (content * string)
}.

(** The hosted service: the model list it reports (or the failure of the
    probe) and, for a session with the given turns, the reply to a new
    message (or the failure of the call). *)
Record service : Type := Service {
  catalogue : outcome (list model_info);
  respond : list (content * string) → content → outcome string
}.

(** The service together with every message handed to it so far, oldest
    first. *)
Record world : Type := World {
  remote : service;
  sent : list content
}.

(** The attributes of a [GeminiClient] object. *)
Record client : Type := Client {
  model_name : string;
  chat : option chat_session
}.

Definition lower_ascii (c : Ascii.ascii) : Ascii.ascii :=
  let n := Ascii.N_of_ascii c in
  if ((65 <=? n) && (n <=? 90))%N then Ascii.ascii_of_N (n + 32) else c.

(** [s.lower()]: the ASCII capitals are lowered and every other byte is
    kept.  Python also lowers capitals outside ASCII, but none of them
    becomes a letter of "flash", so the test in [is_flash] is not
    affected. *)
Fixpoint lower (s : string) : string :=
  match s with
  | EmptyString => EmptyString
  | String c s' => String (lower_ascii c) (lower s')
  end.

(** The condition of the list comprehension. *)
Definition is_flash (m : model_info) : bool :=
  bool_decide ("generateContent" ∈ supported_generation_methods m)
  && str_contains "flash" (lower (name m)).

(** [l.sort(reverse=True)] on strings: descending order. *)
Definition sort_reverse (l : list string) : list string :=
  merge_sort (flip String.le) l.

(** [list(genai.list_models())] *)
Definition genai_list_models : M world (list model_info) :=
  w <- get ;;
  lift (catalogue (remote w)).

(** [l[0]] *)
Definition first {S} (l : list string) : M S string :=
  match l with
  | x :: _ => ret x
  | [] => throw IndexError
  end.

Definition find_latest_flash_model : M world string :=
  try_except
    (models <- genai_list_models ;;
     let flash_models := name <$> filter (λ m, is_flash m = true) models in
     if bool_decide (flash_models = []) then ret FALLBACK_MODEL
     else first (sort_reverse flash_models))
    [ClsException]
    (λ _, ret FALLBACK_MODEL).

(** [__init__]: the constructed object is the result. *)
Definition init (api_key : string) : M world client :=
  if bool_decide (api_key = "") then throw (ValueError "No API Key provided.")
  else
    model_name <- find_latest_flash_model ;;
    ret {| model_name := model_name; chat := None |}.

Definition set_chat (c : option chat_session) : M (client * world) unit :=
  λ '(self, w), (Return tt, ({| model_name := model_name self; chat := c |}, w)).

(** [self.model.start_chat(history=[])] *)
Definition start_chat : M (client * world) chat_session :=
  ret {| history := [] |}.

(** [self.chat.send_message(c)]: the message goes out; a reply is appended
    to the session with the message, a failure is raised. *)
Definition chat_send_message (c : content) : M (client * world) string :=
  λ '(self, w),
    match chat self with
    | None => (Raise AttributeError, (self, w))
    | Some s =>
        let w' := {| remote := remote w; sent := sent w ++ [c] |} in
        match respond (remote w) (history s) c with
        | Return r =>
            (Return r,
             ({| model_name := model_name self;
                 chat := Some {| history := history s ++ [(c, r)] |} |}, w'))
        | Raise e => (Raise e, (self, w'))
        end
    end.

Definition default_prompt_text : string := "Analyze these images.".

Definition start_new_session (images : list image) (prompt_text : string)
    : M (client * world) string :=
  s <- start_chat ;;
  set_chat (Some s) ;;
  let content := Parts (Text prompt_text :: (Img <$> images)) in
  chat_send_message content.

Definition send_message (text : string) : M (client * world) string :=
  st <- get ;;
  if chat (fst st) is None
  then throw (RuntimeError "Chat session not initialized.")
  else chat_send_message (Str text).

Definition resume_session (history_data : json) (images : list image)
    : M (client * world) unit :=
  s <- start_chat ;;
  set_chat (Some s) ;;
  if bool_decide (images ≠ [])
  then chat_send_message
         (Parts (Text "System: Context restoration." :: (Img <$> images))) ;;
       ret tt
  else ret tt.

End GeminiClient.

(** ** Strings and lists as the front end uses them *)

Module Text.

(** A byte that continues a UTF-8 character begun earlier. *)
Definition is_continuation (c : Ascii.ascii) : bool :=
  let n := Ascii.N_of_ascii c in ((128 <=? n) && (n <? 192))%N.

(** [len(s)]: the number of characters. *)
Fixpoint len (s : string) : nat :=
  match s with
  | EmptyString => 0
  | String c s' => if is_continuation c then len s' else S (len s')
  end.

(** [s[:n]]: the first [n] characters, each with all its bytes. *)
Fixpoint slice_to (n : nat) (s : string) : string :=
  match s with
  | EmptyString => EmptyString
  | String c s' =>
      if is_continuation c then String c (slice_to n s')
      else match n with
           | O => EmptyString
           | S n' => String c (slice_to n' s')
           end
  end.

(** [s.replace(old, new)] for single ASCII characters. *)
Fixpoint replace_char (old new : Ascii.ascii) (s : string) : string :=
  match s with
  | EmptyString => EmptyString
  | String c s' =>
      String (if Ascii.eqb c old then new else c) (replace_char old new s')
  end.

(** [s.replace(old, "")] for a non-empty [old]: every occurrence found
    scanning from the left is dropped; [skip] counts the bytes of the
    occurrence being dropped. *)
Fixpoint remove_go (old : string) (skip : nat) (s : string) : string :=
  match s with
  | EmptyString => EmptyString
  | String c s' =>
      match skip with
      | S k => remove_go old k s'
      | O =>
          if String.prefix old s
          then remove_go old (String.length old - 1) s'
          else String c (remove_go old 0 s')
      end
  end.
Definition remove_all (old s : string) : string := remove_go old 0 s.

(** The line feed, and the two of them [append_text] puts after a text. *)
Definition nl : string := String (Ascii.ascii_of_nat 10) EmptyString.
Definition nl2 : string := nl +:+ nl.

(** [l.append(x)]: the items of the list afterwards; only a list has
    the method. *)
Definition list_append (l x : json) : outcome (list json) :=
  match l with
  | JArr xs => Return (xs ++ [x])%list
  | _ => Raise AttributeError
  end.

(** [v[:n]]: strings and lists can be sliced.  (For a dict Python raises
    [TypeError] up to 3.11 and [KeyError] from 3.12.) *)
Definition slice (n : nat) (v : json) : outcome json :=
  match v with
  | JStr s => Return (JStr (slice_to n s))
  | JArr l => Return (JArr (take n l))
  | _ => Raise TypeError
  end.

(** [v + s] for a string [s] *)
Definition add_str (v : json) (s : string) : outcome json :=
  match v with
  | JStr t => Return (JStr (t +:+ s))
  | _ => Raise TypeError
  end.

(** [sorted(data.keys(), reverse=True)] *)
Definition sorted_keys_reverse (data : json) : outcome (list string) :=
  match data with
  | JObj m => Return (GeminiClient.sort_reverse (fst <$> map_to_list m))
  | _ => Raise AttributeError
  end.

End Text.

Export Text.

(** ** [class App]: the logic behind the widgets

    Of the widgets, what the callbacks read and write is kept: the texts
    inserted in the transcript with their tags, the status text, whether
    the two buttons are enabled, the rows and the selection of the
    history list.  Layout, fonts, thumbnails and the entry field are left
    out, and with them [__init__], [setup_ui], [setup_tags],
    [select_images] and [load_history_item], which build widgets or open
    pictures.  A worker thread is recorded when it is started; its body
    is the function of that name, run on its own. *)

Module App.

Import HistoryManager GeminiClient.

(** What is put on [self.msg_queue]. *)
Inductive task : Type :=
  | UiAppend (tag text : string)      (* ("ui_append", (tag, text)) *)
  | Status (text : string)            (* ("status", text) *)
  | EnableControls                    (* ("enable_controls", True) *)
  | Error (text : string).            (* ("error", text) *)

(** The targets of the worker threads. *)
Inductive job : Type :=
  | BgStartAnalysis
  | BgSendMessage (text : string).

(** The attributes of the [App] object that the callbacks use, with the
    file and the service they act on. *)
Record app : Type := App {
  fs : file;   (* the history file *)
  net : world;   (* the hosted service *)
  api_key : string;   (* empty when the environment has no key *)
  client : option GeminiClient.client;
  current_chat_id : option string;
  current_image_paths : json;
  pil_images : list image;
  chat_log_data : json;
  msg_queue : list task;   (* oldest first *)
  chat_display : list (string * string);   (* the inserted texts, each with its tag *)
  status_bar : string;
  btn_send : bool;   (* enabled or not *)
  btn_start : bool;   (* enabled or not *)
  hist_list : list string;   (* the rows of the list box *)
  hist_selection : option nat;   (* the selected row *)
  threads : list job;   (* the worker threads started, oldest first *)
  refreshes : nat   (* pending [root.after(0, self.load_history_ui)] calls *)
}.

Definition set_fs (x : file) (a : app) : app :=
  {| fs := x; net := net a; api_key := api_key a; client := client a;
     current_chat_id := current_chat_id a;
     current_image_paths := current_image_paths a;
     pil_images := pil_images a; chat_log_data := chat_log_data a;
     msg_queue := msg_queue a; chat_display := chat_display a;
     status_bar := status_bar a; btn_send := btn_send a;
     btn_start := btn_start a; hist_list := hist_list a;
     hist_selection := hist_selection a; threads := threads a;
     refreshes := refreshes a |}.

Definition set_net (x : world) (a : app) : app :=
  {| fs := fs a; net := x; api_key := api_key a; client := client a;
     current_chat_id := current_chat_id a;
     current_image_paths := current_image_paths a;
     pil_images := pil_images a; chat_log_data := chat_log_data a;
     msg_queue := msg_queue a; chat_display := chat_display a;
     status_bar := status_bar a; btn_send := btn_send a;
     btn_start := btn_start a; hist_list := hist_list a;
     hist_selection := hist_selection a; threads := threads a;
     refreshes := refreshes a |}.

Definition set_client (x : option GeminiClient.client) (a : app) : app :=
  {| fs := fs a; net := net a; api_key := api_key a; client := x;
     current_chat_id := current_chat_id a;
     current_image_paths := current_image_paths a;
     pil_images := pil_images a; chat_log_data := chat_log_data a;
     msg_queue := msg_queue a; chat_display := chat_display a;
     status_bar := status_bar a; btn_send := btn_send a;
     btn_start := btn_start a; hist_list := hist_list a;
     hist_selection := hist_selection a; threads := threads a;
     refreshes := refreshes a |}.

Definition set_current_chat_id (x : option string) (a : app) : app :=
  {| fs := fs a; net := net a; api_key := api_key a; client := client a;
     current_chat_id := x; current_image_paths := current_image_paths a;
     pil_images := pil_images a; chat_log_data := chat_log_data a;
     msg_queue := msg_queue a; chat_display := chat_display a;
     status_bar := status_bar a; btn_send := btn_send a;
     btn_start := btn_start a; hist_list := hist_list a;
     hist_selection := hist_selection a; threads := threads a;
     refreshes := refreshes a |}.

Definition set_chat_log_data (x : json) (a : app) : app :=
  {| fs := fs a; net := net a; api_key := api_key a; client := client a;
     current_chat_id := current_chat_id a;
     current_image_paths := current_image_paths a;
     pil_images := pil_images a; chat_log_data := x;
     msg_queue := msg_queue a; chat_display := chat_display a;
     status_bar := status_bar a; btn_send := btn_send a;
     btn_start := btn_start a; hist_list := hist_list a;
     hist_selection := hist_selection a; threads := threads a;
     refreshes := refreshes a |}.

Definition set_msg_queue (x : list task) (a : app) : app :=
  {| fs := fs a; net := net a; api_key := api_key a; client := client a;
     current_chat_id := current_chat_id a;
     current_image_paths := current_image_paths a;
     pil_images := pil_images a; chat_log_data := chat_log_data a;
     msg_queue := x; chat_display := chat_display a;
     status_bar := status_bar a; btn_send := btn_send a;
     btn_start := btn_start a; hist_list := hist_list a;
     hist_selection := hist_selection a; threads := threads a;
     refreshes := refreshes a |}.

Definition set_chat_display (x : list (string * string)) (a : app) : app :=
  {| fs := fs a; net := net a; api_key := api_key a; client := client a;
     current_chat_id := current_chat_id a;
     current_image_paths := current_image_paths a;
     pil_images := pil_images a; chat_log_data := chat_log_data a;
     msg_queue := msg_queue a; chat_display := x;
     status_bar := status_bar a; btn_send := btn_send a;
     btn_start := btn_start a; hist_list := hist_list a;
     hist_selection := hist_selection a; threads := threads a;
     refreshes := refreshes a |}.

Definition set_status_bar (x : string) (a : app) : app :=
  {| fs := fs a; net := net a; api_key := api_key a; client := client a;
     current_chat_id := current_chat_id a;
     current_image_paths := current_image_paths a;
     pil_images := pil_images a; chat_log_data := chat_log_data a;
     msg_queue := msg_queue a; chat_display := chat_display a;
     status_bar := x; btn_send := btn_send a; btn_start := btn_start a;
     hist_list := hist_list a; hist_selection := hist_selection a;
     threads := threads a; refreshes := refreshes a |}.

Definition set_btn_send (x : bool) (a : app) : app :=
  {| fs := fs a; net := net a; api_key := api_key a; client := client a;
     current_chat_id := current_chat_id a;
     current_image_paths := current_image_paths a;
     pil_images := pil_images a; chat_log_data := chat_log_data a;
     msg_queue := msg_queue a; chat_display := chat_display a;
     status_bar := status_bar a; btn_send := x; btn_start := btn_start a;
     hist_list := hist_list a; hist_selection := hist_selection a;
     threads := threads a; refreshes := refreshes a |}.

Definition set_btn_start (x : bool) (a : app) : app :=
  {| fs := fs a; net := net a; api_key := api_key a; client := client a;
     current_chat_id := current_chat_id a;
     current_image_paths := current_image_paths a;
     pil_images := pil_images a; chat_log_data := chat_log_data a;
     msg_queue := msg_queue a; chat_display := chat_display a;
     status_bar := status_bar a; btn_send := btn_send a; btn_start := x;
     hist_list := hist_list a; hist_selection := hist_selection a;
     threads := threads a; refreshes := refreshes a |}.

Definition set_hist_list (x : list string) (a : app) : app :=
  {| fs := fs a; net := net a; api_key := api_key a; client := client a;
     current_chat_id := current_chat_id a;
     current_image_paths := current_image_paths a;
     pil_images := pil_images a; chat_log_data := chat_log_data a;
     msg_queue := msg_queue a; chat_display := chat_display a;
     status_bar := status_bar a; btn_send := btn_send a;
     btn_start := btn_start a; hist_list := x;
     hist_selection := hist_selection a; threads := threads a;
     refreshes := refreshes a |}.

Definition set_hist_selection (x : option nat) (a : app) : app :=
  {| fs := fs a; net := net a; api_key := api_key a; client := client a;
     current_chat_id := current_chat_id a;
     current_image_paths := current_image_paths a;
     pil_images := pil_images a; chat_log_data := chat_log_data a;
     msg_queue := msg_queue a; chat_display := chat_display a;
     status_bar := status_bar a; btn_send := btn_send a;
     btn_start := btn_start a; hist_list := hist_list a;
     hist_selection := x; threads := threads a; refreshes := refreshes a |}.

Definition set_threads (x : list job) (a : app) : app :=
  {| fs := fs a; net := net a; api_key := api_key a; client := client a;
     current_chat_id := current_chat_id a;
     current_image_paths := current_image_paths a;
     pil_images := pil_images a; chat_log_data := chat_log_data a;
     msg_queue := msg_queue a; chat_display := chat_display a;
     status_bar := status_bar a; btn_send := btn_send a;
     btn_start := btn_start a; hist_list := hist_list a;
     hist_selection := hist_selection a; threads := x;
     refreshes := refreshes a |}.

Definition set_refreshes (x : nat) (a : app) : app :=
  {| fs := fs a; net := net a; api_key := api_key a; client := client a;
     current_chat_id := current_chat_id a;
     current_image_paths := current_image_paths a;
     pil_images := pil_images a; chat_log_data := chat_log_data a;
     msg_queue := msg_queue a; chat_display := chat_display a;
     status_bar := status_bar a; btn_send := btn_send a;
     btn_start := btn_start a; hist_list := hist_list a;
     hist_selection := hist_selection a; threads := threads a;
     refreshes := x |}.


Definition modify (f : app → app) : M app unit := λ a, (Return tt, f a).

(** A [HistoryManager] call. *)
Definition on_file {A} (m : M file A) : M app A :=
  λ a, let (r, f) := m (fs a) in (r, set_fs f a).

(** A call on the service that is not a method of the client. *)
Definition on_net {A} (m : M world A) : M app A :=
  λ a, let (r, w) := m (net a) in (r, set_net w a).

(** [self.client.method(...)]; with [self.client] still [None] the
    attribute lookup fails. *)
Definition on_client {A} (m : M (GeminiClient.client * world) A) : M app A :=
  λ a, match client a with
       | None => (Raise AttributeError, a)
       | Some c =>
           let '(r, (c', w')) := m (c, net a) in
           (r, set_client (Some c') (set_net w' a))
       end.

(** [self.msg_queue.put(t)] *)
Definition queue_put (t : task) : M app unit :=
  modify (λ a, set_msg_queue (msg_queue a ++ [t]) a).

(** [threading.Thread(target=j, daemon=True).start()] *)
Definition start_thread (j : job) : M app unit :=
  modify (λ a, set_threads (threads a ++ [j]) a).

(** [self.chat_display.delete(1.0, tk.END)] *)
Definition clear_chat_display : M app unit := modify (set_chat_display []).

Definition append_text (tag text : string) : M app unit :=
  modify (λ a, set_chat_display (chat_display a ++ [(tag, text +:+ nl2)]) a).

Definition set_controls (state : bool) : M app unit :=
  modify (λ a, set_btn_start state (set_btn_send state a)).

(** The key under which [json.dump] writes the record: a chat id that is
    still [None] is written as the key "null". *)
Definition json_key (chat_id : option string) : string :=
  match chat_id with
  | Some s => s
  | None => "null"
  end.

(** The loop of [_save_msg] over the log, [title] being "Chat" before
    it. *)
Fixpoint title_loop (log : list json) : outcome json :=
  match log with
  | [] => Return (JStr "Chat")
  | m :: rest =>
      match getitem m "role" with
      | Raise e => Raise e
      | Return role =>
          if eq_str "model" role then
            match getitem m "text" with
            | Raise e => Raise e
            | Return text =>
                match slice 30 text with
                | Raise e => Raise e
                | Return head => add_str head "..."
                end
            end
          else title_loop rest
      end
  end.

(** [{"role": role, "text": text}] *)
Definition message_dict (role text : string) : json :=
  JObj (<["role" := JStr role]> (<["text" := JStr text]> ∅)).

Definition _save_msg (role text : string) (now : string) : M app unit :=
  a <- get ;;
  log <- lift (list_append (chat_log_data a) (message_dict role text)) ;;
  modify (set_chat_log_data (JArr log)) ;;
  title <- lift (title_loop log) ;;
  a <- get ;;
  on_file (save (json_key (current_chat_id a)) title
             (current_image_paths a) (chat_log_data a) now) ;;
  modify (λ a, set_refreshes (S (refreshes a)) a).

Section WithText.

(** [str(e)] for an exception raised by the interpreter or a library,
    whose wording this program does not choose. *)
Variable exn_message : exn → string.

(** [str(v)] for a value that is not a string. *)
Variable format_value : json → string.

(** [str(e)] *)
Definition str_exn (e : exn) : string :=
  match e with
  | ValueError msg | RuntimeError msg | ServiceError msg => msg
  | _ => exn_message e
  end.

(** One round of the loop of [check_queue], for the item just taken. *)
Definition dispatch (t : task) : M app unit :=
  match t with
  | UiAppend tag text => append_text tag text
  | Status data => modify (set_status_bar data)
  | EnableControls => set_controls true
  | Error data =>
      append_text "error" ("Error: " +:+ data) ;;
      set_controls true ;;
      modify (set_status_bar "Error occurred")
  end.

(** The loop of [check_queue]: items are taken from the front until the
    queue is empty.  No branch puts an item, so the loop runs once for
    each item present at the start. *)
Fixpoint drain (q : list task) : M app unit :=
  match q with
  | [] => ret tt
  | t :: q' =>
      modify (set_msg_queue q') ;;
      dispatch t ;;
      drain q'
  end.

(** The timer that calls [check_queue] again is not part of the state. *)
Definition check_queue : M app unit :=
  a <- get ;;
  drain (msg_queue a).

Definition _bg_start_analysis (now : string) : M app unit :=
  try_except
    (a <- get ;;
     (if client a is None then throw (ValueError "Client not ready")
      else ret tt) ;;
     text <- on_client (start_new_session (pil_images a) default_prompt_text) ;;
     queue_put (UiAppend "model" text) ;;
     _save_msg "model" text now ;;
     queue_put (Status "Chat Active") ;;
     queue_put EnableControls)
    [ClsException]
    (λ e, queue_put (Error (str_exn e))).

Definition _bg_send_message (text : string) (now : string) : M app unit :=
  try_except
    (reply <- on_client (send_message text) ;;
     queue_put (UiAppend "model" reply) ;;
     _save_msg "model" reply now ;;
     queue_put (Status "Ready") ;;
     queue_put EnableControls)
    [ClsException]
    (λ e, queue_put (Error (str_exn e))).

(** [now] becomes the chat id. *)
Definition start_analysis_thread (now : string) : M app unit :=
  a <- get ;;
  if pil_images a is [] then ret tt
  else
    set_controls false ;;
    clear_chat_display ;;
    modify (set_chat_log_data (JArr [])) ;;
    modify (set_current_chat_id (Some now)) ;;
    modify (set_status_bar "Analyzing images...") ;;
    queue_put (UiAppend "system"
                 ("Uploading " +:+ pretty (length (pil_images a))
                  +:+ " images...")) ;;
    start_thread BgStartAnalysis.

(** [msg] is the stripped text of the entry field. *)
Definition send_message_thread (msg : string) (now : string) : M app unit :=
  if bool_decide (msg = "") then ret tt
  else
    append_text "user" ("You: " +:+ msg) ;;
    _save_msg "user" msg now ;;
    set_controls false ;;
    modify (set_status_bar "Thinking...") ;;
    start_thread (BgSendMessage msg).

(** The text of a row of the history list. *)
Definition display (date_key : string) (title : json) : string :=
  replace_char (Ascii.ascii_of_nat 84) (Ascii.ascii_of_nat 32) (* T, space *)
    (slice_to 16 date_key) +:+ " | "
  +:+ match title with
      | JStr s => s
      | _ => format_value title
      end.

(** The loop of [load_history_ui]. *)
Fixpoint insert_rows (data : json) (keys : list string) : M app unit :=
  match keys with
  | [] => ret tt
  | date_key :: rest =>
      entry <- lift (getitem data date_key) ;;
      title <- lift (getitem entry "title") ;;
      modify (λ a, set_hist_list (hist_list a ++ [display date_key title]) a) ;;
      insert_rows data rest
  end.

Definition load_history_ui : M app unit :=
  a <- get ;;
  let sel := hist_selection a in
  modify (λ a, set_hist_selection None (set_hist_list [] a)) ;;
  data <- on_file load ;;
  keys <- lift (sorted_keys_reverse data) ;;
  insert_rows data keys ;;
  a <- get ;;
  match sel with
  | Some i =>
      if bool_decide (i < length (hist_list a))
      then modify (set_hist_selection (Some i))
      else ret tt
  | None => ret tt
  end.


(** [confirmed] is the answer to the question box. *)
Definition clear_all_history (confirmed : bool) : M app unit :=
  if confirmed then
    on_file clear_all ;;
    load_history_ui ;;
    clear_chat_display
  else ret tt.

Definition init_client_bg : M app unit :=
  try_except
    (a <- get ;;
     c <- on_net (init (api_key a)) ;;
     modify (set_client (Some c)) ;;
     let model_name := remove_all "models/" (model_name c) in
     queue_put (Status ("Ready (Model: " +:+ model_name +:+ ")")))
    [ClsException]
    (λ e, queue_put (Error ("Startup Error: " +:+ str_exn e))).

End WithText.

End App.

(** ** Vocabulary of the specification *)

Import HistoryManager GeminiClient.

(** The history document kept at the path, when the path can be opened
    and [load] yields a mapping: an absent file and a file of malformed
    JSON stand for the empty document. *)
Definition stored_document (fs : file) : option (gmap string json) :=
  if openable fs then
    match fst (load fs) with
    | Return (JObj m) => Some m
    | _ => None
    end
  else None.

(** [p] occurs in [s]. *)
Definition occurs_in (p s : string) : Prop :=
  ∃ pre post, s = pre +:+ p +:+ post.

(** A listed model that supports content generation and whose name
    contains "flash", whatever the case of its letters. *)
Definition candidate (m : model_info) : Prop :=
  "generateContent" ∈ supported_generation_methods m
  ∧ occurs_in "flash" (lower (name m)).

(** The message [resume_session] makes up from the images. *)
Definition context_message (images : list image) : content :=
  Parts (Text "System: Context restoration." :: (Img <$> images)).

(** A service that is down, and a client with a session open on it. *)
Definition service_down : service :=
  {| catalogue := Raise (ServiceError "503 Service Unavailable");
     respond := λ _ _, Raise (ServiceError "503 Service Unavailable") |}.
Definition client_in_session : client :=
  {| model_name := FALLBACK_MODEL; chat := Some {| history := [] |} |}.

(** A small document and a small model list, for the examples. *)
Definition sample_document : gmap string json :=
  <["2024-05-01T10:00:00.000001" :=
      entry_dict (JStr "A login form...") (JArr [JStr "/tmp/a.png"])
        (JArr []) "2024-05-01T10:00:07.120000"]>
  (<["2024-05-02T09:30:00.000002" := JInt 7]> ∅).

Definition sample_models : list model_info :=
  [ {| name := "models/gemini-1.5-flash";
       supported_generation_methods := ["generateContent"; "countTokens"] |};
    {| name := "models/gemini-2.0-flash";
       supported_generation_methods := ["generateContent"] |};
    {| name := "models/gemini-9-flash-embed";
       supported_generation_methods := ["embedContent"] |};
    {| name := "models/gemini-pro";
       supported_generation_methods := ["generateContent"] |} ].

Definition sample_service : service :=
  {| catalogue := Return sample_models;
     respond := λ _ _, Return "Two screenshots of a login form." |}.

(** A message as [_save_msg] writes it, by someone other than the
    model. *)
Definition other_message (m : json) : Prop :=
  ∃ role text, m = App.message_dict role text ∧ role ≠ "model".

(** Every record of the document has a title. *)
Definition titled (m : gmap string json) : Prop :=
  ∀ k e, m !! k = Some e → ∃ t, getitem e "title" = Return t.

(** [row] is the row of the history list for the record under [k]. *)
Definition row_of (format_value : json → string) (m : gmap string json)
    (k row : string) : Prop :=
  ∃ e t, m !! k = Some e ∧ getitem e "title" = Return t
         ∧ row = App.display format_value k t.

(** What [check_queue] inserts in the transcript for an item. *)
Definition shown (t : App.task) : list (string * string) :=
  match t with
  | App.UiAppend tag text => [(tag, text +:+ nl2)]
  | App.Error text => [("error", ("Error: " +:+ text) +:+ nl2)]
  | App.Status _ | App.EnableControls => []
  end.

(** An item that makes [check_queue] enable the buttons. *)
Definition enabling (t : App.task) : Prop :=
  t = App.EnableControls ∨ ∃ text, t = App.Error text.

(** The front end just after start-up, one picture selected, no chat yet. *)
Definition sample_app : App.app :=
  {| App.fs := Regular (Holds (JObj sample_document));
     App.net := {| remote := sample_service; sent := [] |};
     App.api_key := "AIza-key";
     App.client := Some {| model_name := "models/gemini-2.0-flash";
                           chat := None |};
     App.current_chat_id := None;
     App.current_image_paths := JArr [JStr "/tmp/a.png"];
     App.pil_images := [PILImage "/tmp/a.png"];
     App.chat_log_data := JArr [];
     App.msg_queue := [];
     App.chat_display := [];
     App.status_bar := "Ready (Model: gemini-2.0-flash)";
     App.btn_send := true;
     App.btn_start := true;
     App.hist_list := [];
     App.hist_selection := None;
     App.threads := [];
     App.refreshes := 0 |}.

(** Stand-ins for the wording of library exceptions and for [str] on
    values that are not strings, for the examples. *)
Definition sample_exn_message (e : exn) : string := "<library message>".
Definition sample_format_value (v : json) : string := "<value>".

(** ** [HistoryManager]: what [load] does in each state of the file *)

Lemma load_absent : load Absent = (Return (JObj ∅), Absent).
Proof. reflexivity. Qed.

Lemma load_blocked : load Blocked = (Return (JObj ∅), Blocked).
Proof. reflexivity. Qed.

Lemma load_malformed :
  load (Regular Malformed) = (Return (JObj ∅), Regular Malformed).
Proof. reflexivity. Qed.

Lemma load_holds v : load (Regular (Holds v)) = (Return v, Regular (Holds v)).
Proof. reflexivity. Qed.

(** [load] never changes the file. *)
Lemma load_reads_only fs : snd (load fs) = fs.
Proof. by destruct fs as [| |[| |v]]. Qed.

(** Outside undecodable bytes [load] returns, and what it returns is a
    mapping unless the file holds some other JSON value. *)
Lemma load_returns fs :
  fs ≠ Regular Undecodable → ∃ v, load fs = (Return v, fs).
Proof. destruct fs as [| |[| |v]]; intros Hfs; by eauto. Qed.

Lemma stored_document_load fs m :
  stored_document fs = Some m →
  openable fs = true ∧ load fs = (Return (JObj m), fs).
Proof.
  unfold stored_document.
  destruct fs as [| |[| |v]]; simpl; try done.
  - by intros [= <-].
  - by intros [= <-].
  - destruct v; try done. by intros [= <-].
Qed.

Lemma stored_document_holds m :
  stored_document (Regular (Holds (JObj m))) = Some m.
Proof. reflexivity. Qed.

(** What [save] leaves in the file. *)
Lemma save_run fs m chat_id title image_paths history_log now :
  stored_document fs = Some m →
  save chat_id title image_paths history_log now fs =
    (Return tt,
     Regular (Holds (JObj (<[chat_id :=
        entry_dict title image_paths history_log now]> m)))).
Proof.
  intros [Hopen Hload]%stored_document_load.
  unfold save, bind. rewrite Hload. simpl.
  unfold json_dump_file, bind, get, put. by rewrite Hopen.
Qed.

(** A file holding JSON that is not an object is no history document:
    [save] and [delete_entry] raise on it before anything is written. *)
Example save_on_array :
  save "2024-05-03T08:00:00.000003" (JStr "Chat") (JArr []) (JArr [])
    "2024-05-03T08:00:01.500000" (Regular (Holds (JArr [])))
  = (Raise TypeError, Regular (Holds (JArr []))).
Proof. reflexivity. Qed.

Example delete_entry_on_string :
  delete_entry "05" (Regular (Holds (JStr "2024-05-01")))
  = (Raise TypeError, Regular (Holds (JStr "2024-05-01"))).
Proof. reflexivity. Qed.

Example delete_entry_on_number :
  delete_entry "05" (Regular (Holds (JInt 5)))
  = (Raise TypeError, Regular (Holds (JInt 5))).
Proof. reflexivity. Qed.

(** ** [HistoryManager]: the claims *)

(** C1. Round trip: after [save] the loaded document has, under the
    identifier, an entry whose title, image paths and message log are the
    ones saved. *)
Theorem save_load_roundtrip fs m chat_id title image_paths history_log now :
  stored_document fs = Some m →
  ∃ fs' doc entry,
    save chat_id title image_paths history_log now fs = (Return tt, fs')
    ∧ load fs' = (Return doc, fs')
    ∧ getitem doc chat_id = Return entry
    ∧ getitem entry "title" = Return title
    ∧ getitem entry "images" = Return image_paths
    ∧ getitem entry "messages" = Return history_log.
Proof.
  intros Hdoc. eexists _, _, _.
  split; [by apply save_run|].
  split; [apply load_holds|].
  split; [simpl; by rewrite lookup_insert_eq|].
  by repeat split.
Qed.

Lemma save_load_roundtrip_witness :
  stored_document (Regular (Holds (JObj sample_document)))
    = Some sample_document
  ∧ ∃ fs' doc entry,
      save "2024-05-03T08:00:00.000003" (JStr "Chat")
        (JArr [JStr "/tmp/b.png"; JStr "/tmp/c.png"])
        (JArr [JObj (<["role" := JStr "user"]> (<["text" := JStr "hi"]> ∅))])
        "2024-05-03T08:00:01.500000"
        (Regular (Holds (JObj sample_document))) = (Return tt, fs')
      ∧ load fs' = (Return doc, fs')
      ∧ getitem doc "2024-05-03T08:00:00.000003" = Return entry
      ∧ getitem entry "title" = Return (JStr "Chat")
      ∧ getitem entry "images"
          = Return (JArr [JStr "/tmp/b.png"; JStr "/tmp/c.png"])
      ∧ getitem entry "messages"
          = Return (JArr [JObj (<["role" := JStr "user"]>
                               (<["text" := JStr "hi"]> ∅))]).
Proof.
  split; [reflexivity|].
  apply (save_load_roundtrip _ sample_document). reflexivity.
Defined.

(** C4. [save] upserts one record: the identifier is bound to the new
    record, which is built from the arguments alone, and every other
    identifier keeps its record. *)
Theorem save_upserts fs m chat_id title image_paths history_log now :
  stored_document fs = Some m →
  ∃ fs' m',
    save chat_id title image_paths history_log now fs = (Return tt, fs')
    ∧ stored_document fs' = Some m'
    ∧ m' !! chat_id = Some (entry_dict title image_paths history_log now)
    ∧ ∀ k, k ≠ chat_id → m' !! k = m !! k.
Proof.
  intros Hdoc. eexists _, _.
  split; [by apply save_run|].
  split; [apply stored_document_holds|].
  split; [apply lookup_insert_eq|].
  intros k Hk. by apply lookup_insert_ne.
Qed.

Lemma save_upserts_witness :
  stored_document (Regular (Holds (JObj sample_document)))
    = Some sample_document
  ∧ ∃ fs' m',
      save "2024-05-01T10:00:00.000001" (JStr "Chat") (JArr []) (JArr [])
        "2024-05-04T00:00:00" (Regular (Holds (JObj sample_document)))
        = (Return tt, fs')
      ∧ stored_document fs' = Some m'
      ∧ m' !! "2024-05-01T10:00:00.000001"
          = Some (entry_dict (JStr "Chat") (JArr []) (JArr [])
                    "2024-05-04T00:00:00")
      ∧ ∀ k, k ≠ "2024-05-01T10:00:00.000001" →
             m' !! k = sample_document !! k.
Proof.
  split; [reflexivity|].
  apply (save_upserts _ sample_document). reflexivity.
Defined.

(** C3. [delete_entry] on an identifier the document does not bind
    leaves the file as it is; on a bound identifier it leaves the
    document without that binding and with every other binding as it
    was. *)
Theorem delete_entry_removes_one fs m chat_id :
  stored_document fs = Some m →
  ∃ fs',
    delete_entry chat_id fs = (Return tt, fs')
    ∧ (m !! chat_id = None → fs' = fs)
    ∧ (is_Some (m !! chat_id) →
         ∃ m', stored_document fs' = Some m'
               ∧ m' !! chat_id = None
               ∧ ∀ k, k ≠ chat_id → m' !! k = m !! k).
Proof.
  intros [Hopen Hload]%stored_document_load.
  unfold delete_entry, bind. rewrite Hload. simpl.
  destruct (m !! chat_id) as [e|] eqn:Hk.
  - rewrite bool_decide_eq_true_2 by eauto. simpl.
    unfold json_dump_file, bind, get, put. rewrite Hopen.
    eexists. split; [done|]. split; [done|].
    intros _. eexists. split; [apply stored_document_holds|].
    split; [apply lookup_delete_eq|].
    intros k Hne. by apply lookup_delete_ne.
  - rewrite bool_decide_eq_false_2 by (intros [? ?]; done).
    eexists. split; [done|]. split; [done|]. by intros [? ?].
Qed.

Lemma delete_entry_removes_one_witness :
  stored_document (Regular (Holds (JObj sample_document)))
    = Some sample_document
  ∧ ∃ fs',
      delete_entry "2024-05-02T09:30:00.000002"
        (Regular (Holds (JObj sample_document))) = (Return tt, fs')
      ∧ (sample_document !! "2024-05-02T09:30:00.000002" = None →
           fs' = Regular (Holds (JObj sample_document)))
      ∧ (is_Some (sample_document !! "2024-05-02T09:30:00.000002") →
           ∃ m', stored_document fs' = Some m'
                 ∧ m' !! "2024-05-02T09:30:00.000002" = None
                 ∧ ∀ k, k ≠ "2024-05-02T09:30:00.000002" →
                        m' !! k = sample_document !! k).
Proof.
  split; [reflexivity|].
  apply (delete_entry_removes_one _ sample_document). reflexivity.
Defined.

(** C8. Wherever the file can be opened, [clear_all] returns and a
    [load] after it returns the empty mapping. *)
Theorem clear_all_then_load fs :
  openable fs = true →
  ∃ fs', clear_all fs = (Return tt, fs')
         ∧ load fs' = (Return (JObj ∅), fs').
Proof.
  destruct fs as [| |c]; intros Hopen; try done.
  - by exists Absent.
  - by exists (Regular (Holds (JObj ∅))).
Qed.

Lemma clear_all_then_load_witness :
  openable (Regular (Holds (JObj sample_document))) = true
  ∧ ∃ fs', clear_all (Regular (Holds (JObj sample_document)))
             = (Return tt, fs')
           ∧ load fs' = (Return (JObj ∅), fs').
Proof.
  split; [reflexivity|].
  apply (clear_all_then_load (Regular (Holds (JObj sample_document)))).
  reflexivity.
Defined.

(** C10. With no history file, [clear_all] returns without creating
    one. *)
Theorem clear_all_absent : clear_all Absent = (Return tt, Absent).
Proof. reflexivity. Qed.

(** C2. A history file whose bytes are not text in the file encoding
    makes [load] raise [UnicodeDecodeError], which neither handler class
    catches. *)
Theorem load_undecodable_raises :
  load (Regular Undecodable) = (Raise UnicodeDecodeError, Regular Undecodable)
  ∧ isinstance UnicodeDecodeError ClsJSONDecodeError = false
  ∧ isinstance UnicodeDecodeError ClsIOError = false.
Proof. done. Qed.

(** ** Strings: occurrence and descending sort *)

Lemma append_cons a p q : String a p +:+ q = String a (p +:+ q).
Proof. reflexivity. Qed.

Lemma prefix_append p s :
  String.prefix p s = true ↔ ∃ post, s = p +:+ post.
Proof.
  revert s. induction p as [|a p IH]; intros s.
  - split; [intros _; by exists s|]. by destruct s.
  - destruct s as [|b s].
    + split; [done|]. intros [post Hpost]. by rewrite append_cons in Hpost.
    + change (String.prefix (String a p) (String b s))
        with (if Ascii.ascii_dec a b then String.prefix p s else false).
      setoid_rewrite append_cons.
      destruct (Ascii.ascii_dec a b) as [->|Hne].
      * rewrite IH. split; intros [post Hpost]; exists post; congruence.
      * split; [done|]. intros [post Hpost]. congruence.
Qed.

Lemma str_contains_occurs p s : str_contains p s = true ↔ occurs_in p s.
Proof.
  unfold occurs_in. induction s as [|a s IH].
  - change (str_contains p "") with (String.prefix p "" || false).
    rewrite orb_false_r, prefix_append. split.
    + intros [post ->]. by exists "", post.
    + intros (pre & post & Heq). destruct pre as [|b pre].
      * by exists post.
      * by rewrite append_cons in Heq.
  - change (str_contains p (String a s))
      with (String.prefix p (String a s) || str_contains p s).
    rewrite orb_true_iff, prefix_append, IH. split.
    + intros [[post ->]|(pre & post & ->)].
      * by exists "", post.
      * by exists (String a pre), post.
    + intros (pre & post & Heq). destruct pre as [|b pre].
      * left. by exists post.
      * right. rewrite append_cons in Heq. exists pre, post. congruence.
Qed.

Lemma is_flash_candidate m : is_flash m = true ↔ candidate m.
Proof.
  unfold is_flash, candidate.
  by rewrite andb_true_iff, bool_decide_eq_true, str_contains_occurs.
Qed.

Lemma flip_le_transitive : Transitive (flip String.le).
Proof. intros x y z Hxy Hyz. unfold flip in *. by etrans. Qed.

Lemma flip_le_total : Total (flip String.le).
Proof. intros x y. unfold flip. destruct (total String.le x y); auto. Qed.

(** The first element of the descending sort is an element of the list
    and no element of the list is above it. *)
Lemma sort_reverse_first l :
  l ≠ [] →
  ∃ x rest, sort_reverse l = x :: rest
            ∧ x ∈ l
            ∧ ∀ y, y ∈ l → String.le y x.
Proof.
  intros Hl. unfold sort_reverse.
  pose proof (merge_sort_Permutation (flip String.le) l) as Hperm.
  pose proof (@StronglySorted_merge_sort _ (flip String.le) _
                flip_le_transitive flip_le_total l) as Hsorted.
  destruct (merge_sort (flip String.le) l) as [|x rest].
  - apply Permutation_nil_l in Hperm. by subst.
  - exists x, rest. split; [done|]. split.
    + rewrite <- Hperm. left.
    + intros y Hy. rewrite <- Hperm in Hy.
      apply elem_of_cons in Hy as [->|Hy]; [done|].
      apply StronglySorted_inv in Hsorted as [_ Hall].
      rewrite Forall_forall in Hall. by apply Hall.
Qed.

(** ** [GeminiClient]: the claims *)

(** What [find_latest_flash_model] returns on a probe that succeeded. *)
Lemma find_latest_flash_model_listed sv log ms :
  catalogue sv = Return ms →
  find_latest_flash_model {| remote := sv; sent := log |} =
    (Return
       (match sort_reverse (name <$> filter (λ m, is_flash m = true) ms) with
        | x :: _ => x
        | [] => FALLBACK_MODEL
        end),
     {| remote := sv; sent := log |}).
Proof.
  intros Hcat.
  unfold find_latest_flash_model, try_except, bind, genai_list_models, bind,
    get, lift.
  simpl. rewrite Hcat.
  set (names := name <$> filter (λ m, is_flash m = true) ms).
  case_bool_decide as Hnil.
  - by rewrite Hnil.
  - destruct (sort_reverse_first names Hnil) as (x & rest & -> & _). done.
Qed.

(** C5. [find_latest_flash_model] always returns a name.  It is the
    fallback identifier when the probe raises or lists no candidate;
    otherwise it is the name of a listed candidate, no listed candidate
    has a name above it in lexicographic order, and "flash" occurs in it
    up to case. *)
Theorem find_latest_flash_model_spec (w : world) :
  ∃ r,
    find_latest_flash_model w = (Return r, w)
    ∧ (raises (catalogue (remote w))
       ∨ (∃ ms, catalogue (remote w) = Return ms
                ∧ ∀ m, m ∈ ms → ¬ candidate m)
       → r = FALLBACK_MODEL)
    ∧ (∀ ms, catalogue (remote w) = Return ms →
         (∃ m, m ∈ ms ∧ candidate m) →
         (∃ m, m ∈ ms ∧ candidate m ∧ name m = r)
         ∧ (∀ m, m ∈ ms → candidate m → String.le (name m) r)
         ∧ occurs_in "flash" (lower r)).
Proof.
  destruct w as [sv log]. simpl.
  destruct (catalogue sv) as [ms|e] eqn:Hcat.
  - rewrite (find_latest_flash_model_listed _ _ _ Hcat).
    set (names := name <$> filter (λ m, is_flash m = true) ms).
    assert (Hnames : ∀ x, x ∈ names ↔ ∃ m, m ∈ ms ∧ candidate m ∧ name m = x).
    { intros x. unfold names. rewrite list_elem_of_fmap. split.
      - intros (m & -> & Hm). apply list_elem_of_filter in Hm as [Hm ?].
        exists m. by rewrite <- is_flash_candidate.
      - intros (m & Hm & Hc & <-). exists m. split; [done|].
        apply list_elem_of_filter. by rewrite is_flash_candidate. }
    eexists. split; [done|]. split.
    + intros [[e He]|(ms' & [= <-] & Hnone)]; [done|].
      destruct names as [|x names'] eqn:Hn; [done|]. exfalso.
      destruct (proj1 (Hnames x)) as (m & Hm & Hc & _); [left|].
      by apply (Hnone m).
    + intros ms' [= <-] (m0 & Hm0 & Hc0).
      assert (Hne : names ≠ []).
      { intros Hnil. assert (name m0 ∈ names) as Hin by (apply Hnames; eauto).
        rewrite Hnil in Hin. by apply not_elem_of_nil in Hin. }
      destruct (sort_reverse_first names Hne) as (x & rest & -> & Hx & Hmax).
      apply Hnames in Hx as (m & Hm & Hc & Hname).
      split; [by eauto|]. split.
      * intros m' Hm' Hc'. apply Hmax, Hnames. eauto.
      * rewrite <- Hname. apply Hc.
  - exists FALLBACK_MODEL. split; [|split].
    + unfold find_latest_flash_model, try_except, bind, genai_list_models,
        bind, get, lift. simpl. by rewrite Hcat.
    + done.
    + intros ms [=].
Qed.

Lemma find_latest_flash_model_spec_witness :
  (raises (catalogue service_down)
   ∧ fst (find_latest_flash_model {| remote := service_down; sent := [] |})
       = Return FALLBACK_MODEL)
  ∧ (catalogue sample_service = Return sample_models
     ∧ (∃ m, m ∈ sample_models ∧ candidate m)
     ∧ ∃ r,
         find_latest_flash_model {| remote := sample_service; sent := [] |}
           = (Return r, {| remote := sample_service; sent := [] |})
         ∧ (∃ m, m ∈ sample_models ∧ candidate m ∧ name m = r)
         ∧ (∀ m, m ∈ sample_models → candidate m → String.le (name m) r)
         ∧ occurs_in "flash" (lower r)).
Proof.
  assert (Hdown : raises (catalogue service_down)) by (eexists; reflexivity).
  assert (Hcand : ∃ m, m ∈ sample_models ∧ candidate m).
  { eexists. split; [left|]. apply is_flash_candidate. reflexivity. }
  split.
  - split; [exact Hdown|].
    destruct (find_latest_flash_model_spec
                {| remote := service_down; sent := [] |})
      as (r & Hrun & Hfallback & _).
    rewrite Hrun. simpl. f_equal. apply Hfallback. left. exact Hdown.
  - split; [reflexivity|]. split; [exact Hcand|].
    destruct (find_latest_flash_model_spec
                {| remote := sample_service; sent := [] |})
      as (r & Hrun & _ & Hlisted).
    exists r. split; [exact Hrun|].
    apply (Hlisted sample_models); [reflexivity | exact Hcand].
Defined.

(** On the sample list the newest generating flash model is chosen: the
    embedding-only model is skipped although its name sorts higher. *)
Example find_latest_flash_model_sample :
  fst (find_latest_flash_model {| remote := sample_service; sent := [] |})
    = Return "models/gemini-2.0-flash".
Proof. reflexivity. Qed.

(** [resume_session] with at least one image, step by step. *)
Lemma resume_session_run self w history_data images :
  images ≠ [] →
  resume_session history_data images (self, w) =
    let msg := context_message images in
    let w' := {| remote := remote w; sent := sent w ++ [msg] |} in
    match respond (remote w) [] msg with
    | Return reply =>
        (Return tt,
         ({| model_name := model_name self;
             chat := Some {| history := [(msg, reply)] |} |}, w'))
    | Raise e =>
        (Raise e,
         ({| model_name := model_name self;
             chat := Some {| history := [] |} |}, w'))
    end.
Proof.
  intros Himages.
  unfold resume_session, bind, start_chat, ret, set_chat.
  rewrite bool_decide_eq_true_2 by done.
  unfold chat_send_message, context_message. simpl.
  by destruct (respond (remote w) [] _).
Qed.

(** C6. With a non-empty image set, [resume_session] opens a fresh
    session and hands the service exactly one message, made of the fixed
    label and the images; the service is asked with no earlier turn, and
    nothing of this depends on the message log passed in. *)
Theorem resume_session_replays_images_only self w history_data images :
  images ≠ [] →
  ∃ r self' w',
    resume_session history_data images (self, w) = (r, (self', w'))
    ∧ sent w' = (sent w ++ [context_message images])%list
    ∧ remote w' = remote w
    ∧ match respond (remote w) [] (context_message images) with
      | Return reply =>
          r = Return tt
          ∧ chat self' =
              Some {| history := [(context_message images, reply)] |}
      | Raise e => r = Raise e ∧ chat self' = Some {| history := [] |}
      end
    ∧ ∀ other_history,
        resume_session other_history images (self, w) = (r, (self', w')).
Proof.
  intros Himages.
  pose proof (resume_session_run self w history_data images Himages) as Hrun.
  simpl in Hrun.
  destruct (respond (remote w) [] (context_message images)) as [reply|e]
    eqn:Hreply.
  - eexists _, _, _. split; [exact Hrun|]. repeat split.
    intros other. rewrite resume_session_run by done. simpl.
    by rewrite Hreply.
  - eexists _, _, _. split; [exact Hrun|]. repeat split.
    intros other. rewrite resume_session_run by done. simpl.
    by rewrite Hreply.
Qed.

Lemma resume_session_replays_images_only_witness :
  [PILImage "/tmp/a.png"; PILImage "/tmp/b.png"] ≠ []
  ∧ ∃ r self' w',
      resume_session
        (JArr [JObj (<["role" := JStr "user"]>
                    (<["text" := JStr "What is on the left?"]> ∅))])
        [PILImage "/tmp/a.png"; PILImage "/tmp/b.png"]
        (client_in_session, {| remote := sample_service; sent := [] |})
        = (r, (self', w'))
      ∧ sent w' =
          ([] ++ [context_message
                    [PILImage "/tmp/a.png"; PILImage "/tmp/b.png"]])%list
      ∧ remote w' = sample_service
      ∧ (r = Return tt
         ∧ chat self' =
             Some {| history :=
               [(context_message [PILImage "/tmp/a.png"; PILImage "/tmp/b.png"],
                 "Two screenshots of a login form.")] |})
      ∧ ∀ other_history,
          resume_session other_history
            [PILImage "/tmp/a.png"; PILImage "/tmp/b.png"]
            (client_in_session, {| remote := sample_service; sent := [] |})
            = (r, (self', w')).
Proof.
  split; [discriminate|].
  apply (resume_session_replays_images_only client_in_session
           {| remote := sample_service; sent := [] |}).
  discriminate.
Defined.

(** C9. With no image, [resume_session] opens a fresh session and hands
    the service nothing: the world is as it was. *)
Theorem resume_session_no_images self w history_data :
  resume_session history_data [] (self, w) =
    (Return tt,
     ({| model_name := model_name self; chat := Some {| history := [] |} |},
      w)).
Proof. reflexivity. Qed.

(** C7, as stated, fails: with a session open and the service down,
    [send_message] raises although a session has been started. *)
Lemma send_message_raises_in_session :
  ¬ (raises (fst (send_message "What is on the left?"
                    (client_in_session,
                     {| remote := service_down; sent := [] |})))
     ↔ chat client_in_session = None).
Proof.
  intros [Honly_if _].
  assert (chat client_in_session = None) as Hnone; [|discriminate Hnone].
  apply Honly_if. eexists. reflexivity.
Qed.

(** C7, amended. Without a session [send_message] raises its own
    [RuntimeError] and hands the service nothing. With a session it hands
    the text to the service once and its result is the service's: the
    reply, or the error the call raised. *)
Theorem send_message_spec self w text :
  (chat self = None →
     send_message text (self, w) =
       (Raise (RuntimeError "Chat session not initialized."), (self, w)))
  ∧ (∀ s, chat self = Some s →
       fst (send_message text (self, w))
         = respond (remote w) (history s) (Str text)
       ∧ sent (snd (snd (send_message text (self, w))))
         = (sent w ++ [Str text])%list).
Proof.
  destruct self as [mn [s0|]]; unfold send_message, bind, get; simpl.
  - split; [done|]. intros s [= <-].
    by destruct (respond (remote w) (history s0) (Str text)).
  - split; [done|]. by intros s.
Qed.

Lemma send_message_spec_witness :
  (chat {| model_name := FALLBACK_MODEL; chat := None |} = None
   ∧ send_message "hello"
       ({| model_name := FALLBACK_MODEL; chat := None |},
        {| remote := sample_service; sent := [] |})
     = (Raise (RuntimeError "Chat session not initialized."),
        ({| model_name := FALLBACK_MODEL; chat := None |},
         {| remote := sample_service; sent := [] |})))
  ∧ (chat client_in_session = Some {| history := [] |}
     ∧ fst (send_message "hello"
              (client_in_session,
               {| remote := sample_service; sent := [] |}))
       = Return "Two screenshots of a login form."
     ∧ sent (snd (snd (send_message "hello"
                         (client_in_session,
                          {| remote := sample_service; sent := [] |}))))
       = [Str "hello"]).
Proof.
  split.
  - split; [reflexivity|].
    apply (proj1 (send_message_spec
                    {| model_name := FALLBACK_MODEL; chat := None |}
                    {| remote := sample_service; sent := [] |} "hello")).
    reflexivity.
  - split; [reflexivity|].
    apply (proj2 (send_message_spec client_in_session
                    {| remote := sample_service; sent := [] |} "hello")
             {| history := [] |}).
    reflexivity.
Defined.

(** Hence [send_message] raises exactly when no session is open or the
    service call fails. *)
Corollary send_message_raises_iff self w text :
  raises (fst (send_message text (self, w)))
  ↔ chat self = None
    ∨ ∃ s, chat self = Some s
           ∧ raises (respond (remote w) (history s) (Str text)).
Proof.
  destruct self as [mn [s|]]; unfold send_message, bind, get; simpl.
  - destruct (respond (remote w) (history s) (Str text)) as [r|e] eqn:Hr;
      simpl.
    + split; [by intros [? ?]|]. intros [?|(s' & [= <-] & Hraise)]; [done|].
      by rewrite Hr in Hraise.
    + split; [|by eexists]. intros _. right. exists s. split; [done|].
      rewrite Hr. by eexists.
  - split; [by left|]. intros _. by eexists.
Qed.

(** ** [HistoryManager]: further properties *)




(** X3. [delete_entry] writes only when the file holds an object that
    binds the identifier: it creates no file, repairs no corrupt file and
    leaves any other JSON value alone, whether it returns or raises. *)
Theorem delete_entry_writes_only_bound fs chat_id :
  snd (delete_entry chat_id fs) ≠ fs →
  ∃ m, fs = Regular (Holds (JObj m)) ∧ is_Some (m !! chat_id).
Proof.
  destruct fs as [| |[| |v]]; try done.
  destruct v as [| | | |s|l|m]; try done.
  - unfold delete_entry, bind. simpl. by destruct (str_contains chat_id s).
  - unfold delete_entry, bind. simpl. by destruct (existsb _ l).
  - intros Hchanged. exists m. split; [done|].
    destruct (m !! chat_id) as [e|] eqn:Hk; [by eauto|]. exfalso.
    apply Hchanged. unfold delete_entry, bind. simpl.
    by rewrite bool_decide_eq_false_2 by (rewrite Hk; by intros [? ?]).
Qed.

Lemma delete_entry_writes_only_bound_witness :
  snd (delete_entry "2024-05-02T09:30:00.000002"
         (Regular (Holds (JObj sample_document))))
    ≠ Regular (Holds (JObj sample_document))
  ∧ ∃ m, Regular (Holds (JObj sample_document)) = Regular (Holds (JObj m))
         ∧ is_Some (m !! "2024-05-02T09:30:00.000002").
Proof.
  assert (Hchanged :
    snd (delete_entry "2024-05-02T09:30:00.000002"
           (Regular (Holds (JObj sample_document))))
      ≠ Regular (Holds (JObj sample_document))).
  { intros Heq. vm_compute in Heq. discriminate Heq. }
  split; [exact Hchanged|].
  exact (delete_entry_writes_only_bound _ _ Hchanged).
Defined.

(** X4. A second [delete_entry] of the same identifier does what the
    first did to the caller and changes nothing more. *)
Theorem delete_entry_idempotent fs chat_id :
  delete_entry chat_id (snd (delete_entry chat_id fs))
  = delete_entry chat_id fs.
Proof.
  destruct fs as [| |[| |v]]; try done.
  destruct v as [| | | |s|l|m]; try done.
  - unfold delete_entry, bind. simpl.
    destruct (str_contains chat_id s) eqn:Hin; simpl; by rewrite Hin.
  - unfold delete_entry, bind. simpl.
    destruct (existsb (eq_str chat_id) l) eqn:Hin; simpl; by rewrite Hin.
  - unfold delete_entry, bind. simpl.
    destruct (m !! chat_id) as [e|] eqn:Hk.
    + rewrite bool_decide_eq_true_2 by eauto. simpl.
      rewrite bool_decide_eq_false_2; [done|].
      rewrite lookup_delete_eq. by intros [? ?].
    + rewrite bool_decide_eq_false_2 by (by intros [? ?]). simpl.
      by rewrite bool_decide_eq_false_2 by (rewrite Hk; by intros [? ?]).
Qed.

(** X5. Two saves under one identifier leave what the second alone
    would have left: the later record replaces the earlier one and
    nothing of the earlier one remains. *)
Theorem save_twice_last_wins fs m chat_id t1 i1 l1 n1 t2 i2 l2 n2 :
  stored_document fs = Some m →
  ∃ fs1, save chat_id t1 i1 l1 n1 fs = (Return tt, fs1)
         ∧ save chat_id t2 i2 l2 n2 fs1 = save chat_id t2 i2 l2 n2 fs.
Proof.
  intros Hdoc. eexists. split; [by apply save_run|].
  rewrite (save_run _ _ _ _ _ _ _ (stored_document_holds _)).
  rewrite (save_run _ _ _ _ _ _ _ Hdoc).
  by rewrite insert_insert_eq.
Qed.

Lemma save_twice_last_wins_witness :
  stored_document Absent = Some ∅
  ∧ ∃ fs1,
      save "2024-05-01" (JStr "Chat") (JArr []) (JArr []) "10:00" Absent
        = (Return tt, fs1)
      ∧ save "2024-05-01" (JStr "A form...") (JArr []) (JArr [JNull])
          "10:05" fs1
        = save "2024-05-01" (JStr "A form...") (JArr []) (JArr [JNull])
            "10:05" Absent.
Proof.
  split; [reflexivity|].
  apply (save_twice_last_wins Absent ∅). reflexivity.
Defined.

(** X6. Saves under two different identifiers can be made in either
    order: the file ends up the same. *)
Theorem save_distinct_commute fs m id1 t1 i1 l1 n1 id2 t2 i2 l2 n2 :
  stored_document fs = Some m →
  id1 ≠ id2 →
  ∃ fs1 fs2 fs',
    save id1 t1 i1 l1 n1 fs = (Return tt, fs1)
    ∧ save id2 t2 i2 l2 n2 fs = (Return tt, fs2)
    ∧ save id2 t2 i2 l2 n2 fs1 = (Return tt, fs')
    ∧ save id1 t1 i1 l1 n1 fs2 = (Return tt, fs').
Proof.
  intros Hdoc Hne. eexists _, _, _.
  split; [by apply save_run|]. split; [by apply save_run|].
  split; [apply save_run, stored_document_holds|].
  rewrite (save_run _ _ _ _ _ _ _ (stored_document_holds _)).
  by rewrite insert_insert_ne.
Qed.

Lemma save_distinct_commute_witness :
  stored_document (Regular Malformed) = Some ∅
  ∧ "2024-05-01" ≠ "2024-05-02"
  ∧ ∃ fs1 fs2 fs',
      save "2024-05-01" (JStr "Chat") (JArr []) (JArr []) "10:00"
        (Regular Malformed) = (Return tt, fs1)
      ∧ save "2024-05-02" (JStr "Chat") (JArr []) (JArr []) "11:00"
          (Regular Malformed) = (Return tt, fs2)
      ∧ save "2024-05-02" (JStr "Chat") (JArr []) (JArr []) "11:00" fs1
          = (Return tt, fs')
      ∧ save "2024-05-01" (JStr "Chat") (JArr []) (JArr []) "10:00" fs2
          = (Return tt, fs').
Proof.
  split; [reflexivity|]. split; [discriminate|].
  apply (save_distinct_commute (Regular Malformed) ∅);
    [reflexivity | discriminate].
Defined.

(** X7. Saving a record and deleting it again leaves the document
    without that identifier and otherwise as it was; if the identifier
    was new the document is back to what it was, now written out in
    full, also where there was no file or a malformed one before. *)
Theorem save_then_delete_entry fs m chat_id title image_paths history_log
    now :
  stored_document fs = Some m →
  ∃ fs1,
    save chat_id title image_paths history_log now fs = (Return tt, fs1)
    ∧ delete_entry chat_id fs1
      = (Return tt, Regular (Holds (JObj (delete chat_id m))))
    ∧ (m !! chat_id = None → delete chat_id m = m).
Proof.
  intros Hdoc. eexists. split; [by apply save_run|]. split.
  - unfold delete_entry, bind. simpl.
    rewrite bool_decide_eq_true_2 by (rewrite lookup_insert_eq; eauto).
    simpl. rewrite lookup_insert_eq. simpl.
    by rewrite delete_insert_eq.
  - apply delete_id.
Qed.

Lemma save_then_delete_entry_witness :
  stored_document Absent = Some ∅
  ∧ ∃ fs1,
      save "2024-05-01" (JStr "Chat") (JArr []) (JArr []) "10:00" Absent
        = (Return tt, fs1)
      ∧ delete_entry "2024-05-01" fs1
        = (Return tt, Regular (Holds (JObj (delete "2024-05-01" ∅))))
      ∧ ((∅ : gmap string json) !! "2024-05-01" = None →
         delete "2024-05-01" (∅ : gmap string json) = ∅).
Proof.
  split; [reflexivity|].
  apply (save_then_delete_entry Absent ∅). reflexivity.
Defined.

(** ** [GeminiClient]: further properties *)

Lemma flip_le_antisymm : AntiSymm (=) (flip String.le).
Proof. intros x y Hxy Hyx. unfold flip in *. by apply (anti_symm String.le). Qed.

(** The descending sort does not depend on the order of its input. *)
Lemma sort_reverse_Permutation l1 l2 :
  l1 ≡ₚ l2 → sort_reverse l1 = sort_reverse l2.
Proof.
  intros Hperm. unfold sort_reverse.
  apply (@StronglySorted_unique _ (flip String.le) flip_le_antisymm).
  - apply (@StronglySorted_merge_sort _ (flip String.le) _
             flip_le_transitive flip_le_total).
  - apply (@StronglySorted_merge_sort _ (flip String.le) _
             flip_le_transitive flip_le_total).
  - by rewrite !merge_sort_Permutation.
Qed.

(** X8. The chosen model does not depend on the order in which the
    service lists its models. *)
Theorem find_latest_flash_model_order_irrelevant sv1 sv2 log ms1 ms2 :
  catalogue sv1 = Return ms1 →
  catalogue sv2 = Return ms2 →
  ms1 ≡ₚ ms2 →
  fst (find_latest_flash_model {| remote := sv1; sent := log |})
  = fst (find_latest_flash_model {| remote := sv2; sent := log |}).
Proof.
  intros H1 H2 Hperm.
  rewrite (find_latest_flash_model_listed _ _ _ H1),
    (find_latest_flash_model_listed _ _ _ H2). simpl.
  rewrite (sort_reverse_Permutation
             (name <$> filter (λ m, is_flash m = true) ms1)
             (name <$> filter (λ m, is_flash m = true) ms2)); [done|].
  by rewrite Hperm.
Qed.

Lemma find_latest_flash_model_order_irrelevant_witness :
  catalogue sample_service = Return sample_models
  ∧ catalogue {| catalogue := Return (reverse sample_models);
                 respond := respond sample_service |}
    = Return (reverse sample_models)
  ∧ sample_models ≡ₚ reverse sample_models
  ∧ fst (find_latest_flash_model
           {| remote := sample_service; sent := [] |})
    = fst (find_latest_flash_model
             {| remote := {| catalogue := Return (reverse sample_models);
                             respond := respond sample_service |};
                sent := [] |}).
Proof.
  assert (Hperm : sample_models ≡ₚ reverse sample_models)
    by (symmetry; apply reverse_Permutation).
  split; [reflexivity|]. split; [reflexivity|]. split; [exact Hperm|].
  apply (find_latest_flash_model_order_irrelevant _ _ _ sample_models
           (reverse sample_models)); [reflexivity | reflexivity | exact Hperm].
Defined.

(** X9. Whatever the probe does, the model name [find_latest_flash_model]
    returns has "flash" in it up to case: the fallback has it too. *)
Theorem find_latest_flash_model_names_flash (w : world) :
  ∃ r, fst (find_latest_flash_model w) = Return r
       ∧ occurs_in "flash" (lower r).
Proof.
  assert (Hfallback : occurs_in "flash" (lower FALLBACK_MODEL))
    by (by apply str_contains_occurs).
  destruct w as [sv log].
  destruct (catalogue sv) as [ms|e] eqn:Hcat.
  - rewrite (find_latest_flash_model_listed _ _ _ Hcat). simpl.
    eexists. split; [done|].
    set (names := name <$> filter (λ m, is_flash m = true) ms).
    destruct names as [|n0 rest] eqn:Hnames; [done|].
    destruct (sort_reverse_first (n0 :: rest)) as (x & tl & -> & Hx & _);
      [done|].
    rewrite <- Hnames in Hx. unfold names in Hx.
    apply list_elem_of_fmap in Hx as (m & -> & Hm).
    apply list_elem_of_filter in Hm as [Hm _].
    by apply is_flash_candidate in Hm as [_ ?].
  - exists FALLBACK_MODEL. split; [|done].
    unfold find_latest_flash_model, try_except, bind, genai_list_models,
      bind, get, lift. simpl. by rewrite Hcat.
Qed.

(** [find_latest_flash_model] always returns and leaves the world as it
    is. *)
Lemma find_latest_flash_model_returns (w : world) :
  ∃ r, find_latest_flash_model w = (Return r, w).
Proof.
  destruct w as [sv log].
  destruct (catalogue sv) as [ms|e] eqn:Hcat.
  - rewrite (find_latest_flash_model_listed _ _ _ Hcat). by eexists.
  - exists FALLBACK_MODEL.
    unfold find_latest_flash_model, try_except, bind, genai_list_models,
      bind, get, lift. simpl. by rewrite Hcat.
Qed.

(** X10. Construction fails on an empty key before the service is
    asked anything; with a key it always succeeds, the service's log is
    untouched, and the new client has no session, so that a
    [send_message] on it raises and sends nothing. *)
Theorem init_has_no_session api_key w :
  (api_key = "" →
     init api_key w = (Raise (ValueError "No API Key provided."), w))
  ∧ (api_key ≠ "" →
     ∃ c, init api_key w = (Return c, w)
          ∧ fst (find_latest_flash_model w) = Return (model_name c)
          ∧ chat c = None
          ∧ ∀ text,
              send_message text (c, w)
              = (Raise (RuntimeError "Chat session not initialized."),
                 (c, w))).
Proof.
  split.
  - by intros ->.
  - intros Hkey. unfold init. rewrite bool_decide_eq_false_2 by done.
    destruct (find_latest_flash_model_returns w) as (r & Hrun).
    unfold bind. rewrite Hrun. eexists. split; [done|]. by repeat split.
Qed.

Lemma init_has_no_session_witness :
  init "" {| remote := sample_service; sent := [] |}
  = (Raise (ValueError "No API Key provided."),
     {| remote := sample_service; sent := [] |})
  ∧ "AIza-key" ≠ ""
  ∧ ∃ c, init "AIza-key" {| remote := sample_service; sent := [] |}
         = (Return c, {| remote := sample_service; sent := [] |})
         ∧ fst (find_latest_flash_model
                  {| remote := sample_service; sent := [] |})
           = Return (model_name c)
         ∧ chat c = None
         ∧ ∀ text,
             send_message text (c, {| remote := sample_service; sent := [] |})
             = (Raise (RuntimeError "Chat session not initialized."),
                (c, {| remote := sample_service; sent := [] |})).
Proof.
  split; [apply (proj1 (init_has_no_session "" _)); reflexivity|].
  split; [discriminate|].
  apply (proj2 (init_has_no_session "AIza-key" _)). discriminate.
Defined.

(** X11. [start_new_session] drops whatever session there was, opens a
    fresh one and hands the service exactly one message, the prompt
    followed by the images (also when there is no image). Its result is
    the service's; the session is left open either way, holding that one
    turn if the call succeeded and nothing if it failed. *)
Theorem start_new_session_sends_prompt_and_images self w images prompt_text :
  let msg := Parts (Text prompt_text :: (Img <$> images)) in
  ∃ self' w',
    start_new_session images prompt_text (self, w)
    = (respond (remote w) [] msg, (self', w'))
    ∧ sent w' = (sent w ++ [msg])%list
    ∧ remote w' = remote w
    ∧ model_name self' = model_name self
    ∧ chat self' =
        Some {| history :=
                  match respond (remote w) [] msg with
                  | Return reply => [(msg, reply)]
                  | Raise _ => []
                  end |}.
Proof.
  intros msg. destruct self as [mn c].
  unfold start_new_session, bind, start_chat, ret, set_chat,
    chat_send_message. simpl. fold msg.
  destruct (respond (remote w) [] msg); by eexists _, _.
Qed.

(** X12. With a session open, a successful [send_message] adds exactly
    that turn at the end of the session and a failed one adds nothing, so
    that a retry is answered from the same turns; the model name and the
    service stay as they are. *)
Theorem send_message_records_turn self w text s :
  chat self = Some s →
  ∃ self' w',
    snd (send_message text (self, w)) = (self', w')
    ∧ chat self' =
        Some {| history :=
                  match respond (remote w) (history s) (Str text) with
                  | Return reply => (history s ++ [(Str text, reply)])%list
                  | Raise _ => history s
                  end |}
    ∧ model_name self' = model_name self
    ∧ remote w' = remote w.
Proof.
  destruct self as [mn c]. simpl. intros ->.
  unfold send_message, bind, get, chat_send_message. simpl.
  destruct (respond (remote w) (history s) (Str text));
    eexists _, _; repeat split; by destruct s.
Qed.

Lemma send_message_records_turn_witness :
  chat client_in_session = Some {| history := [] |}
  ∧ ∃ self' w',
      snd (send_message "What is on the left?"
             (client_in_session, {| remote := service_down; sent := [] |}))
      = (self', w')
      ∧ chat self' = Some {| history := [] |}
      ∧ model_name self' = model_name client_in_session
      ∧ remote w' = service_down.
Proof.
  split; [reflexivity|].
  apply (send_message_records_turn client_in_session
           {| remote := service_down; sent := [] |} "What is on the left?"
           {| history := [] |}).
  reflexivity.
Defined.

(** X13. After [start_new_session], whether the call succeeded or
    failed, a [send_message] is passed on to the service: it is answered
    from the first turn if there is one, and from an empty session, one
    that never received the images, if the first call failed. *)
Theorem send_message_after_start_new_session self w images prompt_text text :
  let msg := Parts (Text prompt_text :: (Img <$> images)) in
  fst (send_message text
         (snd (start_new_session images prompt_text (self, w))))
  = respond (remote w)
      match respond (remote w) [] msg with
      | Return reply => [(msg, reply)]
      | Raise _ => []
      end
      (Str text).
Proof.
  intros msg. destruct self as [mn c].
  unfold start_new_session, bind, start_chat, ret, set_chat,
    chat_send_message. simpl. fold msg.
  destruct (respond (remote w) [] msg) as [reply|e];
    unfold send_message, bind, get, chat_send_message; simpl.
  - by destruct (respond (remote w) [(msg, reply)] (Str text)).
  - by destruct (respond (remote w) [] (Str text)).
Qed.

(** X14. After [resume_session] a [send_message] is answered from the
    context message alone (or from nothing, when there was no image or
    the context message failed): no turn of the session that was open
    before reaches the service again. *)
Theorem send_message_after_resume_session self w history_data images text :
  fst (send_message text
         (snd (resume_session history_data images (self, w))))
  = respond (remote w)
      match images with
      | [] => []
      | _ :: _ =>
          match respond (remote w) [] (context_message images) with
          | Return reply => [(context_message images, reply)]
          | Raise _ => []
          end
      end
      (Str text).
Proof.
  destruct images as [|i images].
  - destruct self as [mn c].
    unfold send_message, bind, get, chat_send_message. simpl.
    by destruct (respond (remote w) [] (Str text)).
  - rewrite resume_session_run by done. simpl.
    destruct (respond (remote w) [] (context_message (i :: images)))
      as [reply|e]; unfold send_message, bind, get, chat_send_message; simpl.
    + by destruct (respond (remote w) _ (Str text)).
    + by destruct (respond (remote w) [] (Str text)).
Qed.

(** ** The front end: titles *)

Import App.

Lemma len_append s t : len (s +:+ t) = (len s + len t)%nat.
Proof.
  induction s as [|c s IH]; [done|].
  rewrite append_cons. simpl. destruct (is_continuation c); simpl; lia.
Qed.

Lemma len_slice_to n s : (len (slice_to n s) ≤ n)%nat.
Proof.
  revert n. induction s as [|c s IH]; intros n; simpl; [lia|].
  destruct (is_continuation c) eqn:Hc; simpl.
  - rewrite Hc. apply IH.
  - destruct n as [|n]; simpl; [lia|]. rewrite Hc. specialize (IH n). lia.
Qed.

(** A slice that reaches past the end is the whole string. *)
Lemma slice_to_all n s : (len s ≤ n)%nat → slice_to n s = s.
Proof.
  revert n. induction s as [|c s IH]; intros n; simpl; [done|].
  destruct (is_continuation c); intros Hn.
  - by rewrite IH.
  - destruct n as [|n]; [lia|]. rewrite IH; [done|lia].
Qed.

(** X15. Whatever is in the log, a title that [_save_msg] computes is a
    string of at most 33 characters: "Chat", or at most 30 characters of
    a message followed by three dots. *)
Theorem title_loop_short log title :
  title_loop log = Return title →
  ∃ t, title = JStr t ∧ (len t ≤ 33)%nat.
Proof.
  induction log as [|m rest IH]; simpl.
  - intros [= <-]. exists "Chat". split; [done|]. simpl. lia.
  - destruct (getitem m "role") as [role|e]; [|done].
    destruct (eq_str "model" role); [|done].
    destruct (getitem m "text") as [text|e]; [|done].
    destruct text as [| | | |s|l|o]; try done.
    + simpl. intros [= <-]. eexists. split; [done|].
      rewrite len_append. pose proof (len_slice_to 30 s). simpl. lia.
Qed.

Lemma title_loop_short_witness :
  title_loop [message_dict "user" "hello";
              message_dict "model"
                "A login form with two fields and a very long caption"]
  = Return (JStr "A login form with two fields a...")
  ∧ ∃ t, JStr "A login form with two fields a..." = JStr t ∧ (len t ≤ 33)%nat.
Proof.
  split; [reflexivity|].
  apply (title_loop_short
           [message_dict "user" "hello";
            message_dict "model"
              "A login form with two fields and a very long caption"]).
  reflexivity.
Defined.

Lemma getitem_message_role role text :
  getitem (message_dict role text) "role" = Return (JStr role).
Proof. reflexivity. Qed.

Lemma getitem_message_text role text :
  getitem (message_dict role text) "text" = Return (JStr text).
Proof. reflexivity. Qed.

(** One round of the loop on a message written by [_save_msg]. *)
Lemma title_loop_message role text rest :
  title_loop (message_dict role text :: rest)
  = if bool_decide (role = "model")
    then Return (JStr (slice_to 30 text +:+ "..."))
    else title_loop rest.
Proof.
  change (title_loop (message_dict role text :: rest))
    with (match getitem (message_dict role text) "role" with
          | Raise e => Raise e
          | Return r =>
              if eq_str "model" r then
                match getitem (message_dict role text) "text" with
                | Raise e => Raise e
                | Return t =>
                    match slice 30 t with
                    | Raise e => Raise e
                    | Return head => add_str head "..."
                    end
                end
              else title_loop rest
          end).
  rewrite getitem_message_role, getitem_message_text. done.
Qed.

(** X16. The title is "Chat" as long as the log has no message of the
    model, and from the first such message on it is the first 30
    characters of that message followed by three dots, whatever comes
    later in the log. *)
Theorem title_loop_first_model_reply earlier text later :
  Forall other_message earlier →
  title_loop earlier = Return (JStr "Chat")
  ∧ title_loop (earlier ++ message_dict "model" text :: later)
    = Return (JStr (slice_to 30 text +:+ "...")).
Proof.
  induction 1 as [|m earlier (role & t & -> & Hrole) _ [IH1 IH2]].
  - split; [done|]. cbn [List.app].
    by rewrite title_loop_message, bool_decide_eq_true_2.
  - cbn [List.app]. rewrite !title_loop_message.
    rewrite bool_decide_eq_false_2 by done. by split.
Qed.

Lemma title_loop_first_model_reply_witness :
  Forall other_message [message_dict "user" "What is this?"]
  ∧ title_loop [message_dict "user" "What is this?"] = Return (JStr "Chat")
  ∧ title_loop ([message_dict "user" "What is this?"]
                ++ message_dict "model" "A login form."
                   :: [message_dict "model" "Another answer."])
    = Return (JStr (slice_to 30 "A login form." +:+ "...")).
Proof.
  assert (Hother : Forall other_message [message_dict "user" "What is this?"]).
  { constructor; [|constructor]. exists "user", "What is this?".
    split; [reflexivity | discriminate]. }
  split; [exact Hother|].
  apply (title_loop_first_model_reply _ "A login form."
           [message_dict "model" "Another answer."] Hother).
Defined.

(** ** The front end: saving a message *)

(** [_save_msg] where the file is a history document and the log a list
    whose title can be computed. *)
Lemma _save_msg_run a m l role text now title :
  stored_document (fs a) = Some m →
  chat_log_data a = JArr l →
  title_loop (l ++ [message_dict role text]) = Return title →
  _save_msg role text now a =
    (Return tt,
     set_refreshes (S (refreshes a))
       (set_fs (Regular (Holds (JObj
                  (<[json_key (current_chat_id a) :=
                       entry_dict title (current_image_paths a)
                         (JArr (l ++ [message_dict role text])) now]> m))))
          (set_chat_log_data (JArr (l ++ [message_dict role text])) a))).
Proof.
  intros Hdoc Hlog Htitle.
  unfold _save_msg, bind, get, lift, modify, on_file. rewrite Hlog. simpl.
  rewrite Htitle.
  by rewrite (save_run _ _ _ _ _ _ _ Hdoc).
Qed.

(** X17. [_save_msg] puts the message at the end of the log in memory
    and rewrites the record of the current chat: it has the computed
    title, the current image paths and the whole log, new message
    included. Every other record, the queue, the transcript and the
    chat id are as before. *)
Theorem _save_msg_stores_whole_log a m l role text now title :
  stored_document (fs a) = Some m →
  chat_log_data a = JArr l →
  title_loop (l ++ [message_dict role text]) = Return title →
  ∃ a' m',
    _save_msg role text now a = (Return tt, a')
    ∧ chat_log_data a' = JArr (l ++ [message_dict role text])
    ∧ stored_document (fs a') = Some m'
    ∧ m' !! json_key (current_chat_id a)
      = Some (entry_dict title (current_image_paths a)
                (JArr (l ++ [message_dict role text])) now)
    ∧ (∀ k, k ≠ json_key (current_chat_id a) → m' !! k = m !! k)
    ∧ current_chat_id a' = current_chat_id a
    ∧ msg_queue a' = msg_queue a
    ∧ chat_display a' = chat_display a.
Proof.
  intros Hdoc Hlog Htitle. eexists _, _.
  split; [by apply (_save_msg_run a m l)|]. simpl.
  split; [done|]. split; [done|]. split; [apply lookup_insert_eq|].
  split; [|done]. intros k Hk. by apply lookup_insert_ne.
Qed.

Lemma _save_msg_stores_whole_log_witness :
  stored_document
    (fs (set_current_chat_id (Some "2024-05-03T08:00:00.000003") sample_app))
    = Some sample_document
  ∧ chat_log_data
      (set_current_chat_id (Some "2024-05-03T08:00:00.000003") sample_app)
    = JArr []
  ∧ title_loop ([] ++ [message_dict "model" "A login form."])
    = Return (JStr "A login form....")
  ∧ ∃ a' m',
      _save_msg "model" "A login form." "2024-05-03T08:00:04"
        (set_current_chat_id (Some "2024-05-03T08:00:00.000003") sample_app)
      = (Return tt, a')
      ∧ chat_log_data a' = JArr ([] ++ [message_dict "model" "A login form."])
      ∧ stored_document (fs a') = Some m'
      ∧ m' !! "2024-05-03T08:00:00.000003"
        = Some (entry_dict (JStr "A login form....")
                  (JArr [JStr "/tmp/a.png"])
                  (JArr ([] ++ [message_dict "model" "A login form."]))
                  "2024-05-03T08:00:04")
      ∧ (∀ k, k ≠ "2024-05-03T08:00:00.000003" →
              m' !! k = sample_document !! k)
      ∧ current_chat_id a' = Some "2024-05-03T08:00:00.000003"
      ∧ msg_queue a' = []
      ∧ chat_display a' = [].
Proof.
  split; [reflexivity|]. split; [reflexivity|]. split; [reflexivity|].
  apply (_save_msg_stores_whole_log
           (set_current_chat_id (Some "2024-05-03T08:00:00.000003") sample_app)
           sample_document [] "model" "A login form." "2024-05-03T08:00:04"
           (JStr "A login form....")); reflexivity.
Defined.

(** X18. A message sent before any chat was started or opened is stored
    all the same: the chat id is still [None], which [json.dump] writes
    as the key "null", so the history gets a record "null" titled "Chat"
    that holds the message; the buttons are disabled and the worker is
    started. *)
Theorem send_message_thread_without_chat a m msg now :
  stored_document (fs a) = Some m →
  current_chat_id a = None →
  chat_log_data a = JArr [] →
  msg ≠ "" →
  ∃ a',
    send_message_thread msg now a = (Return tt, a')
    ∧ stored_document (fs a')
      = Some (<["null" :=
                 entry_dict (JStr "Chat") (current_image_paths a)
                   (JArr [message_dict "user" msg]) now]> m)
    ∧ chat_display a'
      = (chat_display a ++ [("user", ("You: " +:+ msg) +:+ nl2)])%list
    ∧ btn_send a' = false
    ∧ btn_start a' = false
    ∧ threads a' = (threads a ++ [BgSendMessage msg])%list.
Proof.
  intros Hdoc Hid Hlog Hmsg.
  unfold send_message_thread. rewrite bool_decide_eq_false_2 by done.
  unfold bind at 1. unfold append_text at 1, modify at 1.
  unfold bind at 1.
  erewrite (_save_msg_run _ m [] "user" msg now (JStr "Chat"));
    [|done|done|].
  - simpl. rewrite Hid. simpl. by eexists.
  - cbn [List.app]. rewrite title_loop_message.
    by rewrite bool_decide_eq_false_2.
Qed.

Lemma send_message_thread_without_chat_witness :
  stored_document (fs sample_app) = Some sample_document
  ∧ current_chat_id sample_app = None
  ∧ chat_log_data sample_app = JArr []
  ∧ "hello" ≠ ""
  ∧ ∃ a',
      send_message_thread "hello" "2024-05-03T08:00:04" sample_app
      = (Return tt, a')
      ∧ stored_document (fs a')
        = Some (<["null" :=
                   entry_dict (JStr "Chat") (JArr [JStr "/tmp/a.png"])
                     (JArr [message_dict "user" "hello"])
                     "2024-05-03T08:00:04"]> sample_document)
      ∧ chat_display a' = ([] ++ [("user", ("You: " +:+ "hello") +:+ nl2)])%list
      ∧ btn_send a' = false
      ∧ btn_start a' = false
      ∧ threads a' = ([] ++ [BgSendMessage "hello"])%list.
Proof.
  split; [reflexivity|]. split; [reflexivity|]. split; [reflexivity|].
  split; [discriminate|].
  apply (send_message_thread_without_chat sample_app sample_document);
    [reflexivity | reflexivity | reflexivity | discriminate].
Defined.

(** ** The front end: the queue and the workers *)

Lemma enabling_dec t : {enabling t} + {¬ enabling t}.
Proof.
  destruct t; [right|right|left|left]; unfold enabling;
    try (intros [?|[? ?]]; done); eauto.
Qed.

(** What the loop of [check_queue] does with the items [q]. *)
Lemma drain_run q a :
  ∃ a',
    drain q a = (Return tt, a')
    ∧ msg_queue a' = match q with [] => msg_queue a | _ => [] end
    ∧ chat_display a' = (chat_display a ++ concat (shown <$> q))%list
    ∧ (Exists enabling q → btn_send a' = true ∧ btn_start a' = true)
    ∧ (¬ Exists enabling q →
       btn_send a' = btn_send a ∧ btn_start a' = btn_start a)
    ∧ fs a' = fs a ∧ net a' = net a ∧ client a' = client a
    ∧ current_chat_id a' = current_chat_id a
    ∧ chat_log_data a' = chat_log_data a
    ∧ hist_list a' = hist_list a ∧ threads a' = threads a.
Proof.
  revert a. induction q as [|t q IH]; intros a.
  - exists a. simpl. rewrite app_nil_r.
    repeat split; try done; by apply Exists_nil in H.
  - destruct t as [tag text|data| |data]; simpl;
      unfold bind, modify, append_text, set_controls, modify; simpl.
    all: match goal with |- context [drain _ ?b] =>
           destruct (IH b) as (a' & -> & Hq & Hd & Hen & Hdis & Hrest) end.
    all: exists a'; split; [done|]; simpl in *.
    all: split; [by destruct q|].
    all: split; [by rewrite Hd, <- ?(assoc_L (++))|].
    all: split; [|split; [|exact Hrest]].
    + intros [Ht|Hq']%Exists_cons; [by destruct Ht as [?|[? ?]]|by apply Hen].
    + intros Hno. apply Hdis. intros Hq'. apply Hno. by right.
    + intros [Ht|Hq']%Exists_cons; [by destruct Ht as [?|[? ?]]|by apply Hen].
    + intros Hno. apply Hdis. intros Hq'. apply Hno. by right.
    + intros _. destruct (@Exists_dec _ enabling enabling_dec q) as [Hq'|Hq'];
        [by apply Hen|by apply Hdis].
    + intros Hno. exfalso. apply Hno. left. by left.
    + intros _. destruct (@Exists_dec _ enabling enabling_dec q) as [Hq'|Hq'];
        [by apply Hen|by apply Hdis].
    + intros Hno. exfalso. apply Hno. left. right. by eexists.
Qed.

(** X19. [check_queue] always returns with the queue empty. The
    transcript grows by what the items show, in the order they were
    put; both buttons end enabled if one of the items was an
    "enable_controls" or an "error" and are as before otherwise; the
    file, the service, the client, the chat id and the log are not
    touched. *)
Theorem check_queue_drains a :
  ∃ a',
    check_queue a = (Return tt, a')
    ∧ msg_queue a' = []
    ∧ chat_display a'
      = (chat_display a ++ concat (shown <$> msg_queue a))%list
    ∧ (Exists enabling (msg_queue a) →
       btn_send a' = true ∧ btn_start a' = true)
    ∧ (¬ Exists enabling (msg_queue a) →
       btn_send a' = btn_send a ∧ btn_start a' = btn_start a)
    ∧ fs a' = fs a ∧ net a' = net a ∧ client a' = client a
    ∧ current_chat_id a' = current_chat_id a
    ∧ chat_log_data a' = chat_log_data a.
Proof.
  unfold check_queue, bind, get.
  destruct (drain_run (msg_queue a) a)
    as (a' & -> & Hq & Hd & Hen & Hdis & ? & ? & ? & ? & ? & _).
  exists a'. repeat split; try done; try (by apply Hen); try (by apply Hdis).
  by destruct (msg_queue a).
Qed.

(** What calls into the client and [_save_msg] leave alone, whatever
    their outcome. *)
Lemma on_client_frame {A} (m : M (GeminiClient.client * world) A) a :
  let a1 := snd (on_client m a) in
  msg_queue a1 = msg_queue a ∧ fs a1 = fs a
  ∧ chat_log_data a1 = chat_log_data a
  ∧ current_chat_id a1 = current_chat_id a
  ∧ current_image_paths a1 = current_image_paths a
  ∧ chat_display a1 = chat_display a
  ∧ btn_send a1 = btn_send a ∧ btn_start a1 = btn_start a.
Proof.
  unfold on_client. destruct (client a) as [c|]; [|done].
  by destruct (m (c, net a)) as [r [c' w']].
Qed.

Lemma _save_msg_frame role text now a :
  let a1 := snd (_save_msg role text now a) in
  msg_queue a1 = msg_queue a
  ∧ chat_display a1 = chat_display a
  ∧ btn_send a1 = btn_send a ∧ btn_start a1 = btn_start a
  ∧ client a1 = client a ∧ net a1 = net a
  ∧ current_chat_id a1 = current_chat_id a.
Proof.
  unfold _save_msg, bind, get, lift, modify, on_file.
  destruct (list_append _ _) as [log|e]; [|done]. simpl.
  destruct (title_loop log) as [title|e]; [|done]. simpl.
  by destruct (save _ _ _ _ _ _) as [[[]|e] f].
Qed.

(** The two workers, outcome by outcome. *)
Lemma _bg_send_message_run em text now a :
  _bg_send_message em text now a =
    match on_client (send_message text) a with
    | (Raise e, a1) => (Return tt, snd (queue_put (Error (str_exn em e)) a1))
    | (Return reply, a1) =>
        match _save_msg "model" reply now
                (snd (queue_put (UiAppend "model" reply) a1)) with
        | (Raise e, a3) =>
            (Return tt, snd (queue_put (Error (str_exn em e)) a3))
        | (Return _, a3) =>
            (Return tt,
             snd (queue_put EnableControls
                    (snd (queue_put (Status "Ready") a3))))
        end
    end.
Proof.
  unfold _bg_send_message, try_except, bind.
  destruct (on_client (send_message text) a) as [[reply|e] a1]; [|done].
  simpl.
  by destruct (_save_msg "model" reply now _) as [[[]|e] a3].
Qed.

Lemma _bg_start_analysis_run em now a :
  _bg_start_analysis em now a =
    match client a with
    | None =>
        (Return tt,
         snd (queue_put (Error (str_exn em (ValueError "Client not ready")))
                a))
    | Some _ =>
        match on_client
                (start_new_session (pil_images a) default_prompt_text) a with
        | (Raise e, a1) =>
            (Return tt, snd (queue_put (Error (str_exn em e)) a1))
        | (Return reply, a1) =>
            match _save_msg "model" reply now
                    (snd (queue_put (UiAppend "model" reply) a1)) with
            | (Raise e, a3) =>
                (Return tt, snd (queue_put (Error (str_exn em e)) a3))
            | (Return _, a3) =>
                (Return tt,
                 snd (queue_put EnableControls
                        (snd (queue_put (Status "Chat Active") a3))))
            end
        end
    end.
Proof.
  unfold _bg_start_analysis, try_except, bind, get.
  destruct (client a) as [c|] eqn:Hc; simpl; [|done].
  destruct (on_client _ a) as [[reply|e] a1]; [|done]. simpl.
  by destruct (_save_msg "model" reply now _) as [[[]|e] a3].
Qed.

(** Every way a worker can end. *)
Lemma _bg_send_message_reports em text now a :
  ∃ a' q t,
    _bg_send_message em text now a = (Return tt, a')
    ∧ msg_queue a' = (msg_queue a ++ q ++ [t])%list
    ∧ enabling t
    ∧ btn_send a' = btn_send a ∧ btn_start a' = btn_start a.
Proof.
  rewrite _bg_send_message_run.
  pose proof (on_client_frame (send_message text) a) as Hc.
  destruct (on_client (send_message text) a) as [[reply|e] a1];
    simpl in Hc; destruct Hc as (Hq1 & _ & _ & _ & _ & _ & Hs1 & Hb1).
  - pose proof (_save_msg_frame "model" reply now
                  (snd (queue_put (UiAppend "model" reply) a1))) as Hs.
    destruct (_save_msg "model" reply now _) as [[[]|e] a3];
      simpl in Hs; destruct Hs as (Hq3 & _ & Hs3 & Hb3 & _).
    + eexists _, [UiAppend "model" reply; Status "Ready"], EnableControls.
      split; [done|]. simpl. rewrite Hq3, Hq1, Hs3, Hb3, Hs1, Hb1.
      rewrite <- !(assoc_L (++)). repeat split; try done. by left.
    + eexists _, [UiAppend "model" reply], (Error _).
      split; [done|]. simpl. rewrite Hq3, Hq1, Hs3, Hb3, Hs1, Hb1.
      rewrite <- !(assoc_L (++)). repeat split; try done. right. by eexists.
  - eexists _, [], (Error _). split; [done|]. simpl.
    rewrite Hq1, Hs1, Hb1. repeat split; try done. right. by eexists.
Qed.

Lemma _bg_start_analysis_reports em now a :
  ∃ a' q t,
    _bg_start_analysis em now a = (Return tt, a')
    ∧ msg_queue a' = (msg_queue a ++ q ++ [t])%list
    ∧ enabling t
    ∧ btn_send a' = btn_send a ∧ btn_start a' = btn_start a.
Proof.
  rewrite _bg_start_analysis_run.
  destruct (client a) as [c|].
  2:{ eexists _, [], (Error _). split; [done|]. simpl.
      repeat split; try done. right. by eexists. }
  pose proof (on_client_frame
                (start_new_session (pil_images a) default_prompt_text) a)
    as Hc.
  destruct (on_client _ a) as [[reply|e] a1];
    simpl in Hc; destruct Hc as (Hq1 & _ & _ & _ & _ & _ & Hs1 & Hb1).
  - pose proof (_save_msg_frame "model" reply now
                  (snd (queue_put (UiAppend "model" reply) a1))) as Hs.
    destruct (_save_msg "model" reply now _) as [[[]|e] a3];
      simpl in Hs; destruct Hs as (Hq3 & _ & Hs3 & Hb3 & _).
    + eexists _, [UiAppend "model" reply; Status "Chat Active"],
        EnableControls.
      split; [done|]. simpl. rewrite Hq3, Hq1, Hs3, Hb3, Hs1, Hb1.
      rewrite <- !(assoc_L (++)). repeat split; try done. by left.
    + eexists _, [UiAppend "model" reply], (Error _).
      split; [done|]. simpl. rewrite Hq3, Hq1, Hs3, Hb3, Hs1, Hb1.
      rewrite <- !(assoc_L (++)). repeat split; try done. right. by eexists.
  - eexists _, [], (Error _). split; [done|]. simpl.
    rewrite Hq1, Hs1, Hb1. repeat split; try done. right. by eexists.
Qed.

(** X20. [_bg_send_message] never raises: a failure of the client, of
    the service or of the saving is caught. However it ends, the last
    item it has put on the queue is an "enable_controls" or an "error",
    and it has not touched the buttons itself. *)
Theorem _bg_send_message_always_reports exn_message text now a :
  ∃ a' q t,
    _bg_send_message exn_message text now a = (Return tt, a')
    ∧ msg_queue a' = (msg_queue a ++ q ++ [t])%list
    ∧ enabling t
    ∧ btn_send a' = btn_send a ∧ btn_start a' = btn_start a.
Proof. apply _bg_send_message_reports. Qed.

(** X21. [_bg_start_analysis] never raises either, also when there is
    no client yet, and the last item it has put on the queue is an
    "enable_controls" or an "error". *)
Theorem _bg_start_analysis_always_reports exn_message now a :
  ∃ a' q t,
    _bg_start_analysis exn_message now a = (Return tt, a')
    ∧ msg_queue a' = (msg_queue a ++ q ++ [t])%list
    ∧ enabling t
    ∧ btn_send a' = btn_send a ∧ btn_start a' = btn_start a.
Proof. apply _bg_start_analysis_reports. Qed.

(** X22. Once a worker has run, the next [check_queue] leaves both
    buttons enabled and the queue empty, whatever happened in the worker
    and whatever was on the queue before. *)
Theorem check_queue_after_worker_enables exn_message text now a :
  (let a1 := snd (_bg_send_message exn_message text now a) in
   btn_send (snd (check_queue a1)) = true
   ∧ btn_start (snd (check_queue a1)) = true
   ∧ msg_queue (snd (check_queue a1)) = [])
  ∧ (let a1 := snd (_bg_start_analysis exn_message now a) in
     btn_send (snd (check_queue a1)) = true
     ∧ btn_start (snd (check_queue a1)) = true
     ∧ msg_queue (snd (check_queue a1)) = []).
Proof.
  assert (Hdrain : ∀ a1 q0 q t,
            msg_queue a1 = (q0 ++ q ++ [t])%list → enabling t →
            btn_send (snd (check_queue a1)) = true
            ∧ btn_start (snd (check_queue a1)) = true
            ∧ msg_queue (snd (check_queue a1)) = []).
  { intros a1 q0 q t Hq Ht. unfold check_queue, bind, get.
    destruct (drain_run (msg_queue a1) a1)
      as (a' & -> & Hempty & _ & Hen & _). simpl.
    assert (Hex : Exists enabling (msg_queue a1)).
    { rewrite Hq, !Exists_app. right. right. by left. }
    destruct (Hen Hex) as [-> ->]. repeat split.
    rewrite Hempty, Hq. by destruct q0, q. }
  split; intros a1; subst a1.
  - destruct (_bg_send_message_reports exn_message text now a)
      as (a' & q & t & -> & Hq & Ht & _). by apply (Hdrain _ _ _ _ Hq).
  - destruct (_bg_start_analysis_reports exn_message now a)
      as (a' & q & t & -> & Hq & Ht & _). by apply (Hdrain _ _ _ _ Hq).
Qed.

(** X23. When the call of the client fails (no client, no session, or
    the service raised), [_bg_send_message] puts one "error" with the
    text of the exception and rolls nothing back: the file, the log and
    the transcript are as they were, so the message of the user that
    [send_message_thread] stored stays stored. *)
Theorem _bg_send_message_failure_keeps_state exn_message text now a e :
  fst (on_client (send_message text) a) = Raise e →
  ∃ a',
    _bg_send_message exn_message text now a = (Return tt, a')
    ∧ msg_queue a' = (msg_queue a ++ [Error (str_exn exn_message e)])%list
    ∧ fs a' = fs a
    ∧ chat_log_data a' = chat_log_data a
    ∧ chat_display a' = chat_display a.
Proof.
  intros Hfail. rewrite _bg_send_message_run.
  pose proof (on_client_frame (send_message text) a) as Hc.
  destruct (on_client (send_message text) a) as [r a1].
  simpl in Hfail, Hc. subst r.
  destruct Hc as (Hq & Hf & Hl & _ & _ & Hd & _).
  eexists. split; [done|]. simpl. by rewrite Hq, Hf, Hl, Hd.
Qed.

Lemma _bg_send_message_failure_keeps_state_witness :
  fst (on_client (send_message "hello") sample_app)
    = Raise (RuntimeError "Chat session not initialized.")
  ∧ ∃ a',
      _bg_send_message sample_exn_message "hello" "2024-05-03T08:00:04"
        sample_app = (Return tt, a')
      ∧ msg_queue a' = ([] ++ [Error "Chat session not initialized."])%list
      ∧ fs a' = Regular (Holds (JObj sample_document))
      ∧ chat_log_data a' = JArr []
      ∧ chat_display a' = [].
Proof.
  split; [reflexivity|].
  apply (_bg_send_message_failure_keeps_state sample_exn_message "hello"
           "2024-05-03T08:00:04" sample_app
           (RuntimeError "Chat session not initialized.")).
  reflexivity.
Defined.

(** X24. When the session answers and the file is a history document,
    [_bg_send_message] puts the reply, the status "Ready" and an
    "enable_controls" on the queue in this order, appends the reply to
    the log and stores the record of the chat with the whole log; the
    session has the new turn at its end and the service was handed the
    text once. *)
Theorem _bg_send_message_success exn_message text now a c s reply m l title :
  client a = Some c →
  chat c = Some s →
  respond (remote (net a)) (history s) (Str text) = Return reply →
  stored_document (fs a) = Some m →
  chat_log_data a = JArr l →
  title_loop (l ++ [message_dict "model" reply]) = Return title →
  ∃ a',
    _bg_send_message exn_message text now a = (Return tt, a')
    ∧ msg_queue a'
      = (msg_queue a
         ++ [UiAppend "model" reply; Status "Ready"; EnableControls])%list
    ∧ chat_log_data a' = JArr (l ++ [message_dict "model" reply])
    ∧ stored_document (fs a')
      = Some (<[json_key (current_chat_id a) :=
                  entry_dict title (current_image_paths a)
                    (JArr (l ++ [message_dict "model" reply])) now]> m)
    ∧ client a'
      = Some {| model_name := model_name c;
                chat := Some {| history :=
                                  history s ++ [(Str text, reply)] |} |}
    ∧ sent (net a') = (sent (net a) ++ [Str text])%list.
Proof.
  intros Hc Hchat Hreply Hdoc Hlog Htitle.
  rewrite _bg_send_message_run.
  unfold on_client. rewrite Hc.
  destruct c as [mn ch]. simpl in Hchat. subst ch.
  unfold send_message, bind, get, chat_send_message. simpl.
  rewrite Hreply. simpl.
  erewrite (_save_msg_run _ m l "model" reply now title);
    [|done|done|done].
  eexists. split; [done|]. simpl.
  rewrite <- !(assoc_L (++)). by repeat split.
Qed.

Lemma _bg_send_message_success_witness :
  client (set_client (Some client_in_session) sample_app)
    = Some client_in_session
  ∧ chat client_in_session = Some {| history := [] |}
  ∧ respond (remote (net (set_client (Some client_in_session) sample_app)))
      (history {| history := [] |}) (Str "hello")
    = Return "Two screenshots of a login form."
  ∧ stored_document (fs (set_client (Some client_in_session) sample_app))
    = Some sample_document
  ∧ chat_log_data (set_client (Some client_in_session) sample_app) = JArr []
  ∧ title_loop
      ([] ++ [message_dict "model" "Two screenshots of a login form."])
    = Return (JStr "Two screenshots of a login for...")
  ∧ ∃ a',
      _bg_send_message sample_exn_message "hello" "2024-05-03T08:00:04"
        (set_client (Some client_in_session) sample_app) = (Return tt, a')
      ∧ msg_queue a'
        = ([] ++ [UiAppend "model" "Two screenshots of a login form.";
                  Status "Ready"; EnableControls])%list
      ∧ chat_log_data a'
        = JArr ([] ++ [message_dict "model"
                         "Two screenshots of a login form."])
      ∧ stored_document (fs a')
        = Some (<["null" :=
                    entry_dict (JStr "Two screenshots of a login for...")
                      (JArr [JStr "/tmp/a.png"])
                      (JArr ([] ++ [message_dict "model"
                                      "Two screenshots of a login form."]))
                      "2024-05-03T08:00:04"]> sample_document)
      ∧ client a'
        = Some {| model_name := FALLBACK_MODEL;
                  chat := Some {| history :=
                    [] ++ [(Str "hello",
                            "Two screenshots of a login form.")] |} |}
      ∧ sent (net a') = ([] ++ [Str "hello"])%list.
Proof.
  split; [reflexivity|]. split; [reflexivity|]. split; [reflexivity|].
  split; [reflexivity|]. split; [reflexivity|]. split; [reflexivity|].
  apply (_bg_send_message_success sample_exn_message "hello"
           "2024-05-03T08:00:04"
           (set_client (Some client_in_session) sample_app)
           client_in_session {| history := [] |}
           "Two screenshots of a login form." sample_document []
           (JStr "Two screenshots of a login for...")); reflexivity.
Defined.

(** ** The front end: the history list *)

(** The sorted identifiers are those of the document. *)
Lemma sorted_keys_reverse_lists_ids_aux (m : gmap string json) :
  (∀ k, k ∈ sort_reverse (fst <$> map_to_list m) ↔ is_Some (m !! k))
  ∧ length (sort_reverse (fst <$> map_to_list m)) = size m.
Proof.
  assert (Hperm : sort_reverse (fst <$> map_to_list m) ≡ₚ (fst <$> map_to_list m))
    by apply merge_sort_Permutation.
  split.
  - intros k. rewrite Hperm, list_elem_of_fmap. split.
    + intros ([k' e] & -> & Hin%elem_of_map_to_list). by eexists.
    + intros [e He]. exists (k, e). split; [done|].
      by apply elem_of_map_to_list.
  - by rewrite Hperm, length_fmap, length_map_to_list.
Qed.

(** X25. The identifiers as the history list orders them: every
    identifier of the document once, in descending lexicographic order,
    so that the newest time stamp comes first. *)
Theorem sorted_keys_reverse_lists_ids m :
  ∃ keys,
    sorted_keys_reverse (JObj m) = Return keys
    ∧ (∀ k, k ∈ keys ↔ is_Some (m !! k))
    ∧ NoDup keys
    ∧ StronglySorted (flip String.le) keys
    ∧ length keys = size m.
Proof.
  eexists. split; [done|].
  assert (Hperm : sort_reverse (fst <$> map_to_list m) ≡ₚ (fst <$> map_to_list m))
    by apply merge_sort_Permutation.
  split; [|split; [|split]].
  - intros k. rewrite Hperm, list_elem_of_fmap. split.
    + intros ([k' e] & -> & Hin%elem_of_map_to_list). by eexists.
    + intros [e He]. exists (k, e). split; [done|].
      by apply elem_of_map_to_list.
  - rewrite Hperm. apply NoDup_fst_map_to_list.
  - apply (@StronglySorted_merge_sort _ (flip String.le) _
             flip_le_transitive flip_le_total).
  - by rewrite Hperm, length_fmap, length_map_to_list.
Qed.

(** The loop of [load_history_ui] over identifiers of titled records. *)
Lemma insert_rows_run fv m keys a :
  (∀ k, k ∈ keys → ∃ e t, m !! k = Some e ∧ getitem e "title" = Return t) →
  ∃ rows,
    insert_rows fv (JObj m) keys a
    = (Return tt, set_hist_list (hist_list a ++ rows) a)
    ∧ Forall2 (row_of fv m) keys rows.
Proof.
  revert a. induction keys as [|k keys IH]; intros a Hkeys.
  - exists []. split; [|constructor]. simpl. rewrite app_nil_r.
    by destruct a.
  - destruct (Hkeys k) as (e & t & Hk & Ht); [left|].
    destruct (IH (set_hist_list (hist_list a ++ [display fv k t]) a))
      as (rows & Hrun & Hrows).
    { intros k' Hk'. apply Hkeys. by right. }
    exists (display fv k t :: rows). split.
    + simpl. unfold bind, lift, modify. rewrite Hk. rewrite Ht. simpl.
      unfold bind, lift, modify in Hrun. rewrite Hrun. simpl.
      rewrite <- (assoc_L (++)). by destruct a.
    + constructor; [|done]. by exists e, t.
Qed.

(** [load_history_ui] on a document of titled records. *)
Lemma load_history_ui_run format_value a m :
  stored_document (fs a) = Some m →
  titled m →
  ∃ a' keys,
    load_history_ui format_value a = (Return tt, a')
    ∧ sorted_keys_reverse (JObj m) = Return keys
    ∧ Forall2 (row_of format_value m) keys (hist_list a')
    ∧ hist_selection a'
      = match hist_selection a with
        | Some i => if bool_decide (i < size m) then Some i else None
        | None => None
        end
    ∧ fs a' = fs a
    ∧ current_chat_id a' = current_chat_id a
    ∧ chat_log_data a' = chat_log_data a
    ∧ chat_display a' = chat_display a
    ∧ status_bar a' = status_bar a
    ∧ current_image_paths a' = current_image_paths a
    ∧ msg_queue a' = msg_queue a
    ∧ refreshes a' = refreshes a.
Proof.
  intros [Hopen Hload]%stored_document_load Htitled.
  destruct (sorted_keys_reverse_lists_ids_aux m) as (Hin & Hlen).
  set (keys := sort_reverse (fst <$> map_to_list m)) in *.
  assert (Hkeys : ∀ k, k ∈ keys →
            ∃ e t, m !! k = Some e ∧ getitem e "title" = Return t).
  { intros k [e He]%Hin. destruct (Htitled k e He) as [t Ht]. eauto. }
  destruct a; simpl in *.
  unfold load_history_ui, bind, get, modify, on_file. simpl.
  rewrite Hload. simpl. fold keys.
  match goal with |- context [insert_rows _ _ _ ?b] =>
    destruct (insert_rows_run format_value m keys b Hkeys)
      as (rows & Hrun & Hrows)
  end.
  rewrite Hrun. simpl in *.
  assert (Hrl : length rows = size m).
  { rewrite <- Hlen. symmetry. by eapply Forall2_length. }
  destruct hist_selection0 as [i|]; simpl.
  - rewrite Hrl. case_bool_decide; simpl; eexists _, keys; by repeat split.
  - eexists _, keys. by repeat split.
Qed.

(** X26. Where every record has a title, [load_history_ui] fills the
    list with one row for each record, in descending order of the
    identifiers; the selection is kept when that row still exists and
    dropped otherwise; the file, the open chat and its log are not
    touched. *)
Theorem load_history_ui_rows format_value a m :
  stored_document (fs a) = Some m →
  titled m →
  ∃ a' keys,
    load_history_ui format_value a = (Return tt, a')
    ∧ sorted_keys_reverse (JObj m) = Return keys
    ∧ Forall2 (row_of format_value m) keys (hist_list a')
    ∧ hist_selection a'
      = match hist_selection a with
        | Some i => if bool_decide (i < size m) then Some i else None
        | None => None
        end
    ∧ fs a' = fs a
    ∧ current_chat_id a' = current_chat_id a
    ∧ chat_log_data a' = chat_log_data a
    ∧ chat_display a' = chat_display a
    ∧ status_bar a' = status_bar a.
Proof.
  intros Hdoc Htitled.
  destruct (load_history_ui_run format_value a m Hdoc Htitled)
    as (a' & keys & ? & ? & ? & ? & ? & ? & ? & ? & ? & _).
  by exists a', keys.
Qed.

Lemma titled_singleton k title image_paths history_log now :
  titled {[ k := entry_dict title image_paths history_log now ]}.
Proof.
  intros k' e [_ <-]%lookup_singleton_Some. by exists title.
Qed.

Lemma load_history_ui_rows_witness :
  stored_document
    (fs (set_fs (Regular (Holds (JObj
           {[ "2024-05-01T10:00:00.000001" :=
                entry_dict (JStr "A login form...") (JArr []) (JArr [])
                  "2024-05-01T10:00:07" ]}))) sample_app))
    = Some {[ "2024-05-01T10:00:00.000001" :=
                entry_dict (JStr "A login form...") (JArr []) (JArr [])
                  "2024-05-01T10:00:07" ]}
  ∧ titled {[ "2024-05-01T10:00:00.000001" :=
                entry_dict (JStr "A login form...") (JArr []) (JArr [])
                  "2024-05-01T10:00:07" ]}
  ∧ hist_list
      (snd (load_history_ui sample_format_value
              (set_fs (Regular (Holds (JObj
                 {[ "2024-05-01T10:00:00.000001" :=
                      entry_dict (JStr "A login form...") (JArr []) (JArr [])
                        "2024-05-01T10:00:07" ]}))) sample_app)))
    = ["2024-05-01 10:00 | A login form..."]
  ∧ ∃ a' keys,
      load_history_ui sample_format_value
        (set_fs (Regular (Holds (JObj
           {[ "2024-05-01T10:00:00.000001" :=
                entry_dict (JStr "A login form...") (JArr []) (JArr [])
                  "2024-05-01T10:00:07" ]}))) sample_app)
      = (Return tt, a')
      ∧ sorted_keys_reverse
          (JObj {[ "2024-05-01T10:00:00.000001" :=
                     entry_dict (JStr "A login form...") (JArr []) (JArr [])
                       "2024-05-01T10:00:07" ]})
        = Return keys
      ∧ Forall2
          (row_of sample_format_value
             {[ "2024-05-01T10:00:00.000001" :=
                  entry_dict (JStr "A login form...") (JArr []) (JArr [])
                    "2024-05-01T10:00:07" ]})
          keys (hist_list a')
      ∧ hist_selection a' = None
      ∧ fs a'
        = Regular (Holds (JObj
            {[ "2024-05-01T10:00:00.000001" :=
                 entry_dict (JStr "A login form...") (JArr []) (JArr [])
                   "2024-05-01T10:00:07" ]}))
      ∧ current_chat_id a' = None
      ∧ chat_log_data a' = JArr []
      ∧ chat_display a' = []
      ∧ status_bar a' = "Ready (Model: gemini-2.0-flash)".
Proof.
  split; [reflexivity|]. split; [apply titled_singleton|].
  split; [reflexivity|].
  apply (load_history_ui_rows sample_format_value
           (set_fs (Regular (Holds (JObj
              {[ "2024-05-01T10:00:00.000001" :=
                   entry_dict (JStr "A login form...") (JArr []) (JArr [])
                     "2024-05-01T10:00:07" ]}))) sample_app));
    [reflexivity | apply titled_singleton].
Defined.





(** X28. "Clear All" empties the history file and the list and clears
    the transcript, but the open chat stays in memory: the next message
    stores it again, with its whole log, as the only record. *)
Theorem clear_all_history_keeps_open_chat format_value a l role text now
    title :
  openable (fs a) = true →
  chat_log_data a = JArr l →
  title_loop (l ++ [message_dict role text]) = Return title →
  ∃ a1 a2,
    clear_all_history format_value true a = (Return tt, a1)
    ∧ stored_document (fs a1) = Some ∅
    ∧ hist_list a1 = []
    ∧ chat_display a1 = []
    ∧ _save_msg role text now a1 = (Return tt, a2)
    ∧ stored_document (fs a2)
      = Some {[ json_key (current_chat_id a) :=
                  entry_dict title (current_image_paths a)
                    (JArr (l ++ [message_dict role text])) now ]}.
Proof.
  intros Hopen Hlog Htitle.
  assert (Hclear : ∃ f, clear_all (fs a) = (Return tt, f)
                        ∧ stored_document f = Some ∅).
  { destruct (fs a) as [| |c]; [by eexists|done|by eexists]. }
  destruct Hclear as (f & Hclear & Hdoc).
  unfold clear_all_history, bind at 1, on_file at 1. rewrite Hclear.
  destruct (load_history_ui_run format_value (set_fs f a) ∅)
    as (a1 & keys & Hrun & [= <-] & Hrows & _ & Hfs1 & Hid1 & Hlog1 & _ & _
        & Hpaths1 & _); [done | by intros k e ?|].
  unfold bind at 1. rewrite Hrun. simpl in Hrows.
  change (sort_reverse (map_to_list (∅ : gmap string json)).*1)
    with (@nil string) in Hrows.
  apply Forall2_nil_inv_l in Hrows.
  eexists _, _. split; [done|]. simpl in *.
  rewrite Hfs1. split; [done|]. split; [done|]. split; [done|].
  rewrite (_save_msg_run (set_chat_display [] a1) ∅ l role text now title).
  - split; [done|]. simpl. by rewrite Hid1, Hpaths1, insert_empty.
  - simpl. by rewrite Hfs1.
  - simpl. by rewrite Hlog1.
  - done.
Qed.

Lemma clear_all_history_keeps_open_chat_witness :
  let a := set_chat_log_data (JArr [message_dict "model" "A login form."])
             (set_current_chat_id (Some "2024-05-01T10:00:00.000001")
                sample_app) in
  openable (fs a) = true
  ∧ chat_log_data a = JArr [message_dict "model" "A login form."]
  ∧ title_loop ([message_dict "model" "A login form."]
                ++ [message_dict "user" "And on the right?"])
    = Return (JStr "A login form....")
  ∧ ∃ a1 a2,
      clear_all_history sample_format_value true a = (Return tt, a1)
      ∧ stored_document (fs a1) = Some ∅
      ∧ hist_list a1 = []
      ∧ chat_display a1 = []
      ∧ _save_msg "user" "And on the right?" "2024-05-01T10:03:00" a1
        = (Return tt, a2)
      ∧ stored_document (fs a2)
        = Some {[ json_key (current_chat_id a) :=
                    entry_dict (JStr "A login form....")
                      (current_image_paths a)
                      (JArr ([message_dict "model" "A login form."]
                             ++ [message_dict "user" "And on the right?"]))
                      "2024-05-01T10:03:00" ]}.
Proof.
  intros a.
  split; [reflexivity|]. split; [reflexivity|]. split; [reflexivity|].
  apply (clear_all_history_keeps_open_chat sample_format_value a
           [message_dict "model" "A login form."] "user" "And on the right?"
           "2024-05-01T10:03:00" (JStr "A login form....")); reflexivity.
Defined.

(** ** The front end: start-up *)

(** X29. [init_client_bg] never raises and puts exactly one item on the
    queue. Without a key it is the error "Startup Error: No API Key
    provided." and no client is set; with a key the client is set, it has
    no session yet, its model is the one [find_latest_flash_model]
    chooses, and the item is the status "Ready" naming that model
    without its "models/" prefix. The service is not sent anything. *)
Theorem init_client_bg_reports_once exn_message a :
  ∃ a' t,
    init_client_bg exn_message a = (Return tt, a')
    ∧ msg_queue a' = (msg_queue a ++ [t])%list
    ∧ net a' = net a
    ∧ (api_key a = "" →
       t = Error "Startup Error: No API Key provided."
       ∧ client a' = client a)
    ∧ (api_key a ≠ "" →
       ∃ c, client a' = Some c
            ∧ chat c = None
            ∧ fst (find_latest_flash_model (net a)) = Return (model_name c)
            ∧ t = Status ("Ready (Model: "
                          +:+ remove_all "models/" (model_name c) +:+ ")")).
Proof.
  unfold init_client_bg, try_except, bind, get, on_net, modify, queue_put,
    modify, init.
  destruct (decide (api_key a = "")) as [Hkey|Hkey].
  - rewrite bool_decide_eq_true_2 by done. simpl.
    eexists _, _. split; [done|]. simpl. repeat split; done.
  - rewrite bool_decide_eq_false_2 by done.
    destruct (find_latest_flash_model_returns (net a)) as (r & Hr).
    unfold bind. rewrite Hr. simpl.
    eexists _, _. split; [done|]. simpl. repeat split; try done.
    intros _. eexists. by repeat split.
Qed.

Example init_client_bg_sample :
  msg_queue (snd (init_client_bg sample_exn_message sample_app))
  = [Status "Ready (Model: gemini-2.0-flash)"].
Proof. reflexivity. Qed.

(** ** The front end: a new chat *)

(** X30. Starting an analysis and running its worker, with a client,
    at least one picture, a service that answers and a history document:
    the chat gets the time of the click as its id; its record holds the
    one reply as its log and the first 30 characters of the reply,
    followed by three dots, as its title; the queue receives the upload
    line, the reply, the status "Chat Active" and an "enable_controls",
    in this order; the buttons stay disabled until the queue is read. *)
Theorem new_chat_first_record exn_message a c m now1 now2 reply :
  pil_images a ≠ [] →
  client a = Some c →
  respond (remote (net a)) []
    (Parts (Text default_prompt_text :: (Img <$> pil_images a)))
  = Return reply →
  stored_document (fs a) = Some m →
  ∃ a1 a2,
    start_analysis_thread now1 a = (Return tt, a1)
    ∧ threads a1 = (threads a ++ [BgStartAnalysis])%list
    ∧ _bg_start_analysis exn_message now2 a1 = (Return tt, a2)
    ∧ current_chat_id a2 = Some now1
    ∧ chat_log_data a2 = JArr [message_dict "model" reply]
    ∧ stored_document (fs a2)
      = Some (<[now1 :=
                  entry_dict (JStr (slice_to 30 reply +:+ "..."))
                    (current_image_paths a)
                    (JArr [message_dict "model" reply]) now2]> m)
    ∧ msg_queue a2
      = (msg_queue a
         ++ [UiAppend "system"
               ("Uploading " +:+ pretty (length (pil_images a))
                +:+ " images...");
             UiAppend "model" reply; Status "Chat Active";
             EnableControls])%list
    ∧ btn_send a2 = false ∧ btn_start a2 = false.
Proof.
  intros Himages Hclient Hreply Hdoc.
  destruct a; simpl in *; subst. destruct c as [mn ch].
  destruct pil_images0 as [|img imgs]; [done|].
  unfold start_analysis_thread, bind, get, set_controls, clear_chat_display,
    modify, queue_put, start_thread, modify. simpl.
  eexists _, _. split; [done|]. split; [done|].
  rewrite _bg_start_analysis_run. simpl.
  unfold on_client. simpl.
  unfold start_new_session, bind, start_chat, ret, set_chat,
    chat_send_message. simpl. simpl in Hreply. rewrite Hreply. simpl.
  erewrite (_save_msg_run _ m [] "model" reply now2
              (JStr (slice_to 30 reply +:+ "..."))); [|done|done|].
  - split; [reflexivity|]. simpl.
    rewrite <- !(assoc_L (++)). by repeat split.
  - cbn [List.app]. by rewrite title_loop_message, bool_decide_eq_true_2.
Qed.

Lemma new_chat_first_record_witness :
  pil_images sample_app ≠ []
  ∧ client sample_app
    = Some {| model_name := "models/gemini-2.0-flash"; chat := None |}
  ∧ respond (remote (net sample_app)) []
      (Parts (Text default_prompt_text :: (Img <$> pil_images sample_app)))
    = Return "Two screenshots of a login form."
  ∧ stored_document (fs sample_app) = Some sample_document
  ∧ ∃ a1 a2,
      start_analysis_thread "2024-05-03T08:00:00.000003" sample_app
      = (Return tt, a1)
      ∧ threads a1 = ([] ++ [BgStartAnalysis])%list
      ∧ _bg_start_analysis sample_exn_message "2024-05-03T08:00:04" a1
        = (Return tt, a2)
      ∧ current_chat_id a2 = Some "2024-05-03T08:00:00.000003"
      ∧ chat_log_data a2
        = JArr [message_dict "model" "Two screenshots of a login form."]
      ∧ stored_document (fs a2)
        = Some (<["2024-05-03T08:00:00.000003" :=
                    entry_dict
                      (JStr (slice_to 30 "Two screenshots of a login form."
                             +:+ "..."))
                      (JArr [JStr "/tmp/a.png"])
                      (JArr [message_dict "model"
                               "Two screenshots of a login form."])
                      "2024-05-03T08:00:04"]> sample_document)
      ∧ msg_queue a2
        = ([] ++ [UiAppend "system"
                    ("Uploading " +:+ pretty (length (pil_images sample_app))
                     +:+ " images...");
                  UiAppend "model" "Two screenshots of a login form.";
                  Status "Chat Active"; EnableControls])%list
      ∧ btn_send a2 = false ∧ btn_start a2 = false.
Proof.
  split; [discriminate|]. split; [reflexivity|]. split; [reflexivity|].
  split; [reflexivity|].
  apply (new_chat_first_record sample_exn_message sample_app
           {| model_name := "models/gemini-2.0-flash"; chat := None |}
           sample_document "2024-05-03T08:00:00.000003" "2024-05-03T08:00:04"
           "Two screenshots of a login form.");
    [discriminate | reflexivity | reflexivity | reflexivity].
Defined.
